(** * The Switchboard price-update script ([switchboard/script/run.ts])

    A shallow embedding of the script's utility functions, its static
    tables and its one linear workflow, with the properties of its
    specification stated and proved about them.

    Conventions of the embedding:
    - a JavaScript [bigint] is a [Z]; [/] and [%] on bigints truncate
      toward zero, which is [Z.quot] and [Z.rem];
    - a JavaScript string is a [string]; every string the script builds
      or inspects by position is ASCII (hexadecimal identifiers, decimal
      numerals), so code units and bytes coincide there;
    - an [async] function that may throw is a computation that yields the
      list of the effects it performed and either the thrown error or its
      value. *)

From Stdlib Require Import ZArith String Ascii List Bool Lia.
From stdpp Require Import base option gmap strings.

Local Open Scope string_scope.
Local Open Scope Z_scope.

(** ** JavaScript string primitives used by the script *)

Module Js.

(** [s.startsWith(p)] *)
Fixpoint startsWith (p s : string) : bool :=
  match p, s with
  | EmptyString, _ => true
  | String a p', String b s' => if Ascii.eqb a b then startsWith p' s' else false
  | String _ _, EmptyString => false
  end.

(** [s.slice(n)] for a non-negative [n]. *)
Fixpoint slice_from (n : nat) (s : string) : string :=
  match n, s with
  | O, _ => s
  | S n', String _ s' => slice_from n' s'
  | S _, EmptyString => EmptyString
  end.

(** [s.slice(0, n)] for a non-negative [n]. *)
Fixpoint slice_to (n : nat) (s : string) : string :=
  match n, s with
  | O, _ => EmptyString
  | S n', String c s' => String c (slice_to n' s')
  | S _, EmptyString => EmptyString
  end.

(** [s.slice(-n)] for a positive [n]: the last [n] characters, the whole
    string when it is shorter. *)
Definition slice_last (n : nat) (s : string) : string :=
  slice_from (String.length s - n) s.

(** Truthiness of a string: only the empty string is falsy. *)
Definition truthy (s : string) : bool :=
  negb (String.eqb s EmptyString).

(** [c.repeat(n)] for a one-character string [c]. *)
Fixpoint repeat (c : ascii) (n : nat) : string :=
  match n with
  | O => EmptyString
  | S n' => String c (repeat c n')
  end.

(** [s.padStart(n, c)] for a one-character filler [c]: a string already
    [n] long or longer is returned as it is. *)
Definition padStart (n : nat) (c : ascii) (s : string) : string :=
  repeat c (n - String.length s) +:+ s.

(** [s.replace(/0+$/, '')]: the leftmost match of [0+$] starts where the
    last run of zeros starts, so the whole run is removed. *)
Fixpoint trimEndZeros (s : string) : string :=
  match s with
  | EmptyString => EmptyString
  | String c s' =>
      match trimEndZeros s' with
      | EmptyString => if Ascii.eqb c "0" then EmptyString else String c EmptyString
      | t => String c t
      end
  end.

(** The decimal digit of a number below ten. *)
Definition digit (n : N) : ascii :=
  ascii_of_N (48 + n).

(** [n.toString()] for a non-negative bigint, least significant digit
    first into the accumulator.  The fuel bounds the number of digits:
    a number has no more decimal digits than binary ones. *)
Fixpoint digits (fuel : nat) (n : N) (acc : string) : string :=
  match fuel with
  | O => acc
  | S fuel' =>
      let acc' := String (digit (n mod 10)) acc in
      if (n <? 10)%N then acc' else digits fuel' (n / 10) acc'
  end.

Definition N_toString (n : N) : string :=
  digits (S (N.to_nat (N.log2 n))) n EmptyString.

(** [n.toString()] for a bigint. *)
Definition toString (n : Z) : string :=
  match n with
  | Z0 => "0"
  | Zpos p => N_toString (Npos p)
  | Zneg p => String "-" (N_toString (Npos p))
  end.

End Js.

(** ** Utility functions *)

(** [normalizeFeedHash], run.ts:13. *)
Definition normalizeFeedHash (hash : string) : string :=
  if Js.startsWith "0x" hash then hash else "0x" +:+ hash.

(** [formatValue], run.ts:17.  [decimals] is a non-negative integer
    ([BigInt(decimals)] and [**] throw on anything else); the script only
    ever uses the default, 18. *)
Definition formatValue (value : Z) (decimals : nat) : string :=
  let divisor := 10 ^ Z.of_nat decimals in
  let whole := Z.quot value divisor in
  let fraction := Z.rem value divisor in
  if fraction =? 0 then Js.toString whole
  else
    let fractionStr := Js.padStart decimals "0" (Js.toString fraction) in
    let trimmed := Js.trimEndZeros fractionStr in
    Js.toString whole +:+ "." +:+ trimmed.

Definition default_decimals : nat := 18.


(** ** Static tables and configuration *)

(** [interface NetworkConfig], run.ts:43. *)
Record NetworkConfig := mkNetworkConfig {
  name : string;
  chainId : Z;
  explorer : string;
  switchboard : string;
  verifier : option string;
  queue : option string
}.

(** [NETWORKS], run.ts:52: the entries the object has of its own. *)
Definition NETWORKS : gmap string NetworkConfig :=
  <["monad-testnet" :=
      {| name := "Monad Testnet";
         chainId := 10143;
         explorer := "https://testnet.monadscan.io";
         switchboard := "0xD3860E2C66cBd5c969Fa7343e6912Eff0416bA33";
         verifier := None; queue := None |}]>
  (<["monad-mainnet" :=
      {| name := "Monad Mainnet";
         chainId := 143;
         explorer := "https://mainnet-beta.monvision.io";
         switchboard := "0xB7F03eee7B9F56347e32cC71DaD65B303D5a0E67";
         verifier := None; queue := None |}]> ∅).

(** [NETWORKS] is a plain object, so reading it at a name also finds what
    every object inherits from [Object.prototype]: eleven functions and,
    under [__proto__], the prototype itself.  Each is listed with the
    [name] of its value; the prototype has none. *)
Definition Object_prototype : list (string * option string) :=
  [ ("constructor", Some "Object");
    ("__defineGetter__", Some "__defineGetter__");
    ("__defineSetter__", Some "__defineSetter__");
    ("hasOwnProperty", Some "hasOwnProperty");
    ("__lookupGetter__", Some "__lookupGetter__");
    ("__lookupSetter__", Some "__lookupSetter__");
    ("isPrototypeOf", Some "isPrototypeOf");
    ("propertyIsEnumerable", Some "propertyIsEnumerable");
    ("toString", Some "toString");
    ("valueOf", Some "valueOf");
    ("__proto__", None);
    ("toLocaleString", Some "toLocaleString") ].

Fixpoint inherited (key : string) (l : list (string * option string))
    : option (option string) :=
  match l with
  | [] => None
  | (k, v) :: l' => if String.eqb key k then Some v else inherited key l'
  end.

(** What [NETWORKS[key]] is when it is not [undefined]: an entry of the
    table, or an inherited value, of which the script can read the
    [name] only ([chainId], [explorer] and [switchboard] are
    [undefined]).  Both are truthy. *)
Inductive NetworkEntry :=
  | Own (networkConfig : NetworkConfig)
  | Inherited (name : option string).

(** [NETWORKS[key]], run.ts:183; [None] is [undefined]. *)
Definition NETWORKS_read (key : string) : option NetworkEntry :=
  match NETWORKS !! key with
  | Some networkConfig => Some (Own networkConfig)
  | None =>
      match inherited key Object_prototype with
      | Some name => Some (Inherited name)
      | None => None
      end
  end.

(** [${x}] for a string that may be [undefined]. *)
Definition show_optional (x : option string) : string :=
  match x with Some s => s | None => "undefined" end.

(** [networkConfig.name] and [networkConfig.switchboard] in a template
    string. *)
Definition entry_name (e : NetworkEntry) : string :=
  match e with
  | Own networkConfig => name networkConfig
  | Inherited name => show_optional name
  end.

Definition entry_switchboard (e : NetworkEntry) : string :=
  match e with
  | Own networkConfig => switchboard networkConfig
  | Inherited _ => show_optional None
  end.

(** The variables of [process.env] the script reads, once
    [dotenv.config()] has loaded them; [None] is an unset variable. *)
Record Env := mkEnv {
  RPC_URL : option string;
  PRIVATE_KEY : option string;
  NETWORK : option string;
  FEED_HASH : option string;
  MAX_PRICE_AGE : option string;
  MAX_DEVIATION_BPS : option string
}.

(** [process.env.X || d]: an unset or empty variable gives the default. *)
Definition or_default (x : option string) (d : string) : string :=
  match x with
  | Some s => if Js.truthy s then s else d
  | None => d
  end.

(** The [config] object, run.ts:71.  A JavaScript number obtained by
    [parseInt] is an integer or [NaN] ([None]). *)
Record Config := mkConfig {
  rpcUrl : string;
  privateKey : string;
  network : string;
  feedHash : string;
  maxPriceAge : option Z;
  maxDeviationBps : option Z
}.

Definition BTC_USD : string :=
  "0x4cd1cad962425681af07b9254b7d804de3ca3446fbfd1371bb258d2c75059812".

Definition mkconfig (parseInt : string -> option Z) (e : Env) : Config :=
  {| rpcUrl := or_default (RPC_URL e) "https://testnet-rpc.monad.xyz";
     privateKey := or_default (PRIVATE_KEY e) "";
     network := or_default (NETWORK e) "monad-testnet";
     feedHash := or_default (FEED_HASH e) BTC_USD;
     maxPriceAge := parseInt (or_default (MAX_PRICE_AGE e) "300");
     maxDeviationBps := parseInt (or_default (MAX_DEVIATION_BPS e) "1000") |}.

(** The deployment lookup key, run.ts:203; both branches of the
    conditional are the same literal. *)
Definition networkKey (network : string) : string :=
  if String.eqb network "monad-testnet" then "monadTestnet" else "monadTestnet".

(** ** Data exchanged with the outside *)

(** A thrown value: an [Error] object with its message and, when the
    engine recorded one, its stack. *)
Record JsError := mkJsError {
  message : string;
  stack : option string
}.

(** The outcome of a call that may throw (or of a promise that may reject). *)
Definition result (A : Type) : Type := JsError + A.

(** The deployments file: network key, then contract name, then record. *)
Record Deployment := mkDeployment { address : string }.

(** The gateway's answer to [fetchOracleQuote].  The script tests
    [encoded] and [medianResponses] before use, so both may be absent. *)
Module MedianResponse.
Record t := mk { value : string }.
End MedianResponse.

Module OracleQuote.
Record t := mk {
  encoded : option string;
  medianResponses : option (list MedianResponse.t);
  timestamp : Z;
  slot : Z;
  oracleResponses : list unit
}.
End OracleQuote.

(** The object [fetchFeedData] returns, run.ts:145. *)
Module FeedData.
Record t := mk {
  feedHash : string;
  value : string;
  timestamp : Z;
  slot : Z;
  numOracles : Z;
  encoded : string
}.
End FeedData.

Module Tx.
Record t := mk { hash : string }.
End Tx.

Module Receipt.
Record t := mk {
  blockNumber : Z;
  gasUsed : Z;
  status : Z;
  hash : string
}.
End Receipt.

(** The builtins of the language and of the ethers library the script
    calls; they do no input or output.  Those that may throw return a
    [result]. *)
Record Runtime := mkRuntime {
  (** the stack the engine records in [new Error(msg)] *)
  captureStack : string -> string;
  (** [parseInt(s)] *)
  parseInt : string -> option Z;
  (** [BigInt(s)]: a [SyntaxError] on a string that is no integer *)
  BigInt : string -> result Z;
  (** the rendering of a JavaScript number in a template string *)
  showNumber : Z -> string;
  (** the rendering of [Number(x) / 100] in a template string *)
  showPercent : Z -> string;
  (** [new Date(ms).toISOString()]: a [RangeError] outside the range of dates *)
  toISOString : Z -> result string;
  (** [ethers.formatEther(x)] *)
  formatEther : Z -> string;
  (** [new ethers.Wallet(key, provider)] then [getAddress()]: throws on
      a malformed key *)
  walletAddress : string -> result string;
  (** what [new ethers.Network(name, chainId)] throws when [chainId] is
      [undefined] *)
  invalidChainId : JsError
}.

(** What the outside answers during one run.  Each request is made at
    most once, so an answer is a function of the request. *)
Record World := mkWorld {
  env : Env;
  (** [fs.existsSync(deploymentsPath)] *)
  fs_existsSync : bool;
  (** [JSON.parse(fs.readFileSync(deploymentsPath, 'utf8'))]; the document
      is an object of objects of records with an [address], as the
      deployment script writes it *)
  fs_readDeployments : result (gmap string (gmap string Deployment));
  (** [provider.getBalance(address)] *)
  rpc_getBalance : string -> result Z;
  (** [crossbar.fetchOracleQuote(feedHashes, cluster)] *)
  crossbar_fetchOracleQuote : list string -> string -> result OracleQuote.t;
  (** [switchboard.getFee(updates)] at the contract's address *)
  sb_getFee : string -> list string -> result Z;
  (** [priceConsumer.updatePrices(updates, feedIds, {value})] *)
  pc_updatePrices : string -> list string -> list string -> Z -> result Tx.t;
  (** [tx.wait()]; ethers rejects, rather than answers, when the
      transaction reverted *)
  tx_wait : Tx.t -> result Receipt.t;
  (** the read-back views of the consumer contract *)
  pc_getPrice : string -> string -> result (Z * Z * Z);
  pc_isPriceFresh : string -> string -> result bool;
  pc_getPriceAge : string -> string -> result Z;
  pc_maxPriceAge : string -> result Z;
  pc_maxDeviationBps : string -> result Z
}.

(** The observable effects of a run, in order; a request is recorded
    with the answer it got. *)
Inductive Event :=
  | ConsoleLog (line : string)
  | ConsoleError (line : string)
  | ExistsSync (r : bool)
  | ReadDeployments (r : result (gmap string (gmap string Deployment)))
  | GetBalance (account : string) (r : result Z)
  | FetchOracleQuote (feedHashes : list string) (cluster : string)
      (r : result OracleQuote.t)
  | GetFee (contract : string) (updates : list string) (r : result Z)
  | UpdatePrices (contract : string) (updates feedIds : list string)
      (payment : Z) (r : result Tx.t)
  | Wait (tx : Tx.t) (r : result Receipt.t)
  | GetPrice (contract feedId : string) (r : result (Z * Z * Z))
  | IsPriceFresh (contract feedId : string) (r : result bool)
  | GetPriceAge (contract feedId : string) (r : result Z)
  | MaxPriceAge (contract : string) (r : result Z)
  | MaxDeviationBps (contract : string) (r : result Z).

Definition is_error {A} (r : result A) : bool :=
  match r with inl _ => true | inr _ => false end.

(** The requests that leave the machine: the gateway query and the
    ledger calls.  Console output and file access are local. *)
Definition is_network_call (e : Event) : bool :=
  match e with
  | ConsoleLog _ | ConsoleError _ | ExistsSync _ | ReadDeployments _ => false
  | _ => true
  end.

Definition is_gateway_call (e : Event) : bool :=
  match e with FetchOracleQuote _ _ _ => true | _ => false end.

Definition is_submission (e : Event) : bool :=
  match e with UpdatePrices _ _ _ _ _ => true | _ => false end.

(** An external request that was answered by an error (or the file
    found missing). *)
Definition is_failed_call (e : Event) : bool :=
  match e with
  | ConsoleLog _ | ConsoleError _ => false
  | ExistsSync r => negb r
  | ReadDeployments r => is_error r
  | GetBalance _ r | GetFee _ _ r | GetPriceAge _ _ r
  | MaxPriceAge _ r | MaxDeviationBps _ r => is_error r
  | FetchOracleQuote _ _ r => is_error r
  | UpdatePrices _ _ _ _ r => is_error r
  | Wait _ r => is_error r
  | GetPrice _ _ r => is_error r
  | IsPriceFresh _ _ r => is_error r
  end.

(** What went to the error stream. *)
Definition stderr (t : list Event) : list string :=
  flat_map (fun e => match e with ConsoleError l => [l] | _ => [] end) t.

(** ** The effect monad: a trace and a value or a thrown error *)

Definition M (A : Type) : Type := list Event * result A.

Definition ret {A} (a : A) : M A := ([], inr a).

Definition throw {A} (e : JsError) : M A := ([], inl e).

Definition bind {A B} (m : M A) (k : A -> M B) : M B :=
  match m with
  | (t, inl e) => (t, inl e)
  | (t, inr a) => let '(t', r) := k a in ((t ++ t')%list, r)
  end.

(** [try { m } catch (error) { handler }] *)
Definition tryCatch {A} (m : M A) (handler : JsError -> M A) : M A :=
  match m with
  | (t, inl e) => let '(t', r) := handler e in ((t ++ t')%list, r)
  | (t, inr a) => (t, inr a)
  end.

(** A builtin that may throw and has no other effect. *)
Definition lift {A} (r : result A) : M A := ([], r).

(** A request to the outside, recorded with its answer. *)
Definition request {A} (ev : result A -> Event) (r : result A) : M A :=
  ([ev r], r).

Definition console_log (line : string) : M unit := ([ConsoleLog line], inr tt).
Definition console_error (line : string) : M unit := ([ConsoleError line], inr tt).

(** [if (c) { throw e }] *)
Definition throw_if (c : bool) (e : JsError) : M unit :=
  if c then throw e else ret tt.

Notation "'do' x <- m ;; k" := (bind m (fun x => k))
  (at level 10, x name, m at level 99, k at level 200).
Notation "'do' ' p <- m ;; k" := (bind m (fun x => let 'p := x in k))
  (at level 10, p pattern, m at level 99, k at level 200).
Notation "m ;; k" := (bind m (fun _ => k))
  (at level 100, k at level 200, right associativity).

(** [fs.existsSync] does not throw; it is recorded with its answer. *)
Definition existsSync (found : bool) : M bool := ([ExistsSync found], inr found).

(** ** The workflow *)

(** The line feed of a template string. *)
Definition nl : string := String (ascii_of_nat 10) EmptyString.

(** ['='.repeat(60)] and ['-'.repeat(60)] *)
Definition rule (c : ascii) : string := Js.repeat c 60.

Section Workflow.

Context (rt : Runtime) (w : World).

(** [new Error(msg)] *)
Definition newError (msg : string) : JsError :=
  {| message := msg; stack := Some (captureStack rt msg) |}.

Definition config : Config := mkconfig (parseInt rt) (env w).

(** [loadDeployments], run.ts:31. *)
Definition loadDeployments : M (gmap string (gmap string Deployment)) :=
  do found <- existsSync (fs_existsSync w) ;;
  throw_if (negb found)
    (newError "deployments.json not found. Please deploy the contract first.") ;;
  request ReadDeployments (fs_readDeployments w).

(** [fetchFeedData], run.ts:107. *)
Definition fetchFeedData (feedHash : string) : M FeedData.t :=
  console_log (nl +:+ rule "=") ;;
  console_log "📡 STEP 1: Fetching Feed Data from Switchboard Crossbar" ;;
  console_log (rule "=") ;;
  let normalizedFeedHash := normalizeFeedHash feedHash in
  let feedHashForCrossbar :=
    if Js.startsWith "0x" normalizedFeedHash
    then Js.slice_from 2 normalizedFeedHash
    else normalizedFeedHash in
  console_log (nl +:+ "🔍 Feed Hash: " +:+ normalizedFeedHash) ;;
  console_log "📡 Connecting to Switchboard Crossbar API..." ;;
  tryCatch
    (console_log "⏳ Fetching oracle quote for feed..." ;;
     do response <- request (FetchOracleQuote [feedHashForCrossbar] "mainnet")
                      (crossbar_fetchOracleQuote w [feedHashForCrossbar] "mainnet") ;;
     match OracleQuote.encoded response with
     | None => throw (newError "No encoded data in response")
     | Some encoded =>
       throw_if (negb (Js.truthy encoded)) (newError "No encoded data in response") ;;
       match OracleQuote.medianResponses response ≫= head with
       | None => throw (newError "No median response in data")
       | Some medianResponse =>
         console_log (nl +:+ "✅ Feed Data Retrieved Successfully:") ;;
         do v <- lift (BigInt rt (MedianResponse.value medianResponse)) ;;
         console_log ("   📊 Value: " +:+ formatValue v default_decimals) ;;
         do iso <- lift (toISOString rt (OracleQuote.timestamp response * 1000)) ;;
         console_log ("   🕐 Timestamp: " +:+ iso) ;;
         console_log ("   🔢 Slot Number: " +:+ showNumber rt (OracleQuote.slot response)) ;;
         let numOracles := Z.of_nat (length (OracleQuote.oracleResponses response)) in
         console_log ("   👥 Number of Oracles: " +:+ showNumber rt numOracles) ;;
         console_log ("   📦 Encoded Data Length: "
                      +:+ showNumber rt (Z.of_nat (String.length encoded)) +:+ " bytes") ;;
         ret {| FeedData.feedHash := normalizedFeedHash;
                FeedData.value := MedianResponse.value medianResponse;
                FeedData.timestamp := OracleQuote.timestamp response;
                FeedData.slot := OracleQuote.slot response;
                FeedData.numOracles := numOracles;
                FeedData.encoded := encoded |}
       end
     end)
    (fun error =>
     console_error (nl +:+ "❌ Error fetching feed data:") ;;
     console_error ("   " +:+ message error) ;;
     throw (newError ("Failed to fetch feed data: " +:+ message error))).

(** [networkConfig.chainId] in a template string. *)
Definition entry_chainId (e : NetworkEntry) : string :=
  match e with
  | Own networkConfig => showNumber rt (chainId networkConfig)
  | Inherited _ => show_optional None
  end.

(** [new ethers.Network(networkConfig.name, networkConfig.chainId)],
    run.ts:220: the constructor throws on a chain id that is
    [undefined].  Past it the entry is one of the table's own, which is
    what the rest of the workflow reads. *)
Definition ethers_Network (e : NetworkEntry) : result NetworkConfig :=
  match e with
  | Own networkConfig => inr networkConfig
  | Inherited _ => inl (invalidChainId rt)
  end.

(** [updatePrices], run.ts:164. *)
Definition updatePrices : M unit :=
  console_log (nl +:+ rule "=") ;;
  console_log "🚀 Switchboard Price Consumer - Update Prices" ;;
  console_log (rule "=") ;;
  (* Step 1: Validate Configuration *)
  console_log (nl +:+ "📋 STEP 1: Validating Configuration") ;;
  console_log (rule "-") ;;
  throw_if (negb (Js.truthy (rpcUrl config)))
    (newError "❌ RPC_URL environment variable is required") ;;
  console_log ("✅ RPC URL: " +:+ rpcUrl config) ;;
  throw_if (negb (Js.truthy (privateKey config)))
    (newError "❌ PRIVATE_KEY environment variable is required") ;;
  console_log ("✅ Private Key: " +:+ Js.slice_to 6 (privateKey config) +:+ "..."
               +:+ Js.slice_last 4 (privateKey config) +:+ " (hidden)") ;;
  match NETWORKS_read (network config) with
  | None => throw (newError ("❌ Unknown network: " +:+ network config))
  | Some networkEntry =>
    console_log ("✅ Network: " +:+ entry_name networkEntry +:+ " (Chain ID: "
                 +:+ entry_chainId networkEntry +:+ ")") ;;
    console_log ("✅ Feed Hash: " +:+ feedHash config) ;;
    (* Step 2: Load Deployments *)
    console_log (nl +:+ "📋 STEP 2: Loading Contract Addresses") ;;
    console_log (rule "-") ;;
    do deployments <-
      tryCatch
        (do d <- loadDeployments ;;
         console_log "✅ Loaded deployments.json" ;;
         ret d)
        (fun error =>
         console_error ("❌ " +:+ message error) ;;
         throw error) ;;
    let networkKey := networkKey (network config) in
    match deployments !! networkKey ≫= (.!! "SwitchBoardTest") with
    | None => throw (newError ("❌ No deployment found for " +:+ networkKey
                               +:+ ". Please deploy the contract first."))
    | Some deployment =>
      let priceConsumerAddress := address deployment in
      console_log ("✅ Price Consumer Contract: " +:+ priceConsumerAddress) ;;
      console_log ("✅ Switchboard Contract: " +:+ entry_switchboard networkEntry) ;;
      (* Step 3: Setup Provider and Signer *)
      console_log (nl +:+ "📋 STEP 3: Setting Up Provider and Signer") ;;
      console_log (rule "-") ;;
      do networkConfig <- lift (ethers_Network networkEntry) ;;
      let switchboardAddress := switchboard networkConfig in
      do signerAddress <- lift (walletAddress rt (privateKey config)) ;;
      console_log ("✅ Provider connected to: " +:+ rpcUrl config) ;;
      console_log ("✅ Signer address: " +:+ signerAddress) ;;
      do balance <- request (GetBalance signerAddress) (rpc_getBalance w signerAddress) ;;
      console_log ("✅ Account balance: " +:+ formatEther rt balance +:+ " ETH") ;;
      (* Step 4: Fetch Feed Data *)
      do feedData <- fetchFeedData (feedHash config) ;;
      (* Step 5: Get Required Fee *)
      console_log (nl +:+ "📋 STEP 4: Calculating Required Fee") ;;
      console_log (rule "-") ;;
      console_log "⏳ Querying switchboard for update fee..." ;;
      do fee <- request (GetFee switchboardAddress [FeedData.encoded feedData])
                  (sb_getFee w switchboardAddress [FeedData.encoded feedData]) ;;
      console_log ("✅ Required fee: " +:+ formatEther rt fee +:+ " ETH ("
                   +:+ Js.toString fee +:+ " wei)") ;;
      throw_if (balance <? fee)
        (newError ("❌ Insufficient balance. Need " +:+ formatEther rt fee
                   +:+ " ETH, have " +:+ formatEther rt balance +:+ " ETH")) ;;
      (* Step 6: Submit Transaction *)
      console_log (nl +:+ "📋 STEP 5: Submitting Update Transaction") ;;
      console_log (rule "-") ;;
      let feedIdForUpdate := normalizeFeedHash (feedHash config) in
      console_log "📝 Preparing transaction..." ;;
      console_log ("   Contract: " +:+ priceConsumerAddress) ;;
      console_log ("   Feed ID: " +:+ feedIdForUpdate) ;;
      console_log ("   Value: " +:+ formatEther rt fee +:+ " ETH") ;;
      console_log (nl +:+ "⏳ Sending transaction...") ;;
      do tx <- request (UpdatePrices priceConsumerAddress
                          [FeedData.encoded feedData] [feedIdForUpdate] fee)
                 (pc_updatePrices w priceConsumerAddress
                    [FeedData.encoded feedData] [feedIdForUpdate] fee) ;;
      console_log "✅ Transaction submitted!" ;;
      console_log ("   Transaction Hash: " +:+ Tx.hash tx) ;;
      console_log ("   Explorer: " +:+ explorer networkConfig +:+ "/tx/" +:+ Tx.hash tx) ;;
      console_log (nl +:+ "⏳ Waiting for confirmation...") ;;
      do receipt <- request (Wait tx) (tx_wait w tx) ;;
      console_log (nl +:+ "✅ Transaction Confirmed!") ;;
      console_log (rule "-") ;;
      console_log ("   Block Number: " +:+ showNumber rt (Receipt.blockNumber receipt)) ;;
      console_log ("   Gas Used: " +:+ Js.toString (Receipt.gasUsed receipt)) ;;
      console_log ("   Status: " +:+ (if Receipt.status receipt =? 1
                                      then "✅ Success" else "❌ Failed")) ;;
      console_log ("   Explorer: " +:+ explorer networkConfig +:+ "/tx/"
                   +:+ Receipt.hash receipt) ;;
      (* Step 7: Verify Price Update *)
      console_log (nl +:+ "📋 STEP 6: Verifying Price Update") ;;
      console_log (rule "-") ;;
      let feedId := normalizeFeedHash (feedHash config) in
      console_log ("⏳ Querying on-chain price data for feed: " +:+ feedId +:+ "...") ;;
      do '(value, timestamp, slotNumber) <-
        request (GetPrice priceConsumerAddress feedId)
          (pc_getPrice w priceConsumerAddress feedId) ;;
      do isFresh <- request (IsPriceFresh priceConsumerAddress feedId)
                      (pc_isPriceFresh w priceConsumerAddress feedId) ;;
      do age <- request (GetPriceAge priceConsumerAddress feedId)
                  (pc_getPriceAge w priceConsumerAddress feedId) ;;
      do maxPriceAge <- request (MaxPriceAge priceConsumerAddress)
                          (pc_maxPriceAge w priceConsumerAddress) ;;
      do maxDeviationBps <- request (MaxDeviationBps priceConsumerAddress)
                              (pc_maxDeviationBps w priceConsumerAddress) ;;
      console_log (nl +:+ "📊 On-Chain Price Data:") ;;
      console_log (rule "-") ;;
      console_log ("   Feed ID: " +:+ feedId) ;;
      console_log ("   Value: " +:+ formatValue value default_decimals) ;;
      do iso <- lift (toISOString rt (timestamp * 1000)) ;;
      console_log ("   Timestamp: " +:+ iso) ;;
      console_log ("   Slot Number: " +:+ Js.toString slotNumber) ;;
      console_log ("   Price Age: " +:+ Js.toString age +:+ " seconds") ;;
      console_log ("   Max Price Age: " +:+ Js.toString maxPriceAge +:+ " seconds") ;;
      console_log ("   Is Fresh: " +:+ (if isFresh : bool then "✅ Yes" else "❌ No")) ;;
      console_log ("   Max Deviation: " +:+ Js.toString maxDeviationBps +:+ " bps ("
                   +:+ showPercent rt maxDeviationBps +:+ "%)") ;;
      console_log (nl +:+ rule "=") ;;
      console_log "✅ Price Update Complete!" ;;
      console_log (rule "=" +:+ nl) ;;
      ret tt
    end
  end.

(** [main], run.ts:324, with the exit code of the process: 1 from
    [process.exit(1)] in the handler, 0 when the script runs to its end.
    The handler itself throws nothing, so the [catch] attached to
    [main()] at run.ts:340 is never entered. *)
Definition main : list Event * Z :=
  match updatePrices with
  | (t, inr _) => (t, 0)
  | (t, inl error) =>
      (t ++ [ConsoleError (nl +:+ rule "=");
             ConsoleError "❌ ERROR: Operation Failed";
             ConsoleError (rule "=");
             ConsoleError (nl +:+ message error +:+ nl)]
         ++ match stack error with
            | Some st =>
                if Js.truthy st
                then [ConsoleError "Stack trace:"; ConsoleError st]
                else []
            | None => []
            end,
       1)%list
  end.

End Workflow.

(** ** Vocabulary of the properties *)

(** Reading strings: decimal digits, hexadecimal case, the decimal point. *)
Module Text.

Definition is_digit (c : ascii) : bool :=
  let n := N_of_ascii c in ((48 <=? n) && (n <=? 57))%N.

Definition is_upper_hex (c : ascii) : bool :=
  let n := N_of_ascii c in ((65 <=? n) && (n <=? 70))%N.

Definition is_hex (c : ascii) : bool :=
  let n := N_of_ascii c in
  (is_digit c || is_upper_hex c || ((97 <=? n) && (n <=? 102)))%N.

Fixpoint all (p : ascii -> bool) (s : string) : bool :=
  match s with
  | EmptyString => true
  | String c s' => p c && all p s'
  end.

(** A feed identifier as the script accepts it: hexadecimal digits of
    either case, after an optional ["0x"]. *)
Definition is_feed_id (s : string) : bool :=
  all is_hex (if Js.startsWith "0x" s then Js.slice_from 2 s else s).

(** No hexadecimal digit of the string is an upper-case letter. *)
Definition lowercase_hex (s : string) : bool :=
  all (fun c => negb (is_upper_hex c)) s.

Fixpoint contains (c : ascii) (s : string) : bool :=
  match s with
  | EmptyString => false
  | String a s' => Ascii.eqb a c || contains c s'
  end.

(** The text after the first decimal point, when there is one. *)
Fixpoint fraction_part (s : string) : option string :=
  match s with
  | EmptyString => None
  | String a s' => if Ascii.eqb a "." then Some s' else fraction_part s'
  end.

(** The text before the first decimal point (all of it when there is none). *)
Fixpoint whole_part (s : string) : string :=
  match s with
  | EmptyString => EmptyString
  | String a s' => if Ascii.eqb a "." then EmptyString else String a (whole_part s')
  end.

Fixpoint last (s : string) : option ascii :=
  match s with
  | EmptyString => None
  | String a EmptyString => Some a
  | String _ s' => last s'
  end.

(** The number a string of decimal digits denotes, most significant
    digit first. *)
Fixpoint number_from (acc : N) (s : string) : N :=
  match s with
  | EmptyString => acc
  | String c s' => number_from (10 * acc + (N_of_ascii c - 48)) s'
  end.

Definition number (s : string) : N := number_from 0 s.

End Text.

(** Modelled from the spec: the re-parsing of a formatted value at a
    scale, which the round-trip property speaks of and the script does not
    contain.  It is the usual reading of a fixed-point numeral: an
    optional sign, digits, and an optional point followed by at most
    [decimals] digits, which count as if padded with zeros on the right. *)
Definition parseValue (s : string) (decimals : nat) : option Z :=
  let negative := Js.startsWith "-" s in
  let body := if negative then Js.slice_from 1 s else s in
  let whole := Text.whole_part body in
  let fraction :=
    match Text.fraction_part body with Some f => f | None => EmptyString end in
  if Text.all Text.is_digit whole && Text.all Text.is_digit fraction
     && (String.length fraction <=? decimals)%nat
     && Js.truthy body
  then
    let magnitude :=
      (Text.number whole * 10 ^ N.of_nat decimals
       + Text.number fraction * 10 ^ N.of_nat (decimals - String.length fraction))%N in
    Some (if negative then - Z.of_N magnitude else Z.of_N magnitude)
  else None.

(** A canonical decimal numeral: digits, not none and with no zero in
    front of another digit, then nothing more or a point and digits, not
    none and the last not a zero. *)
Definition canonical_decimal (s : string) : bool :=
  let whole := Text.whole_part s in
  Text.all Text.is_digit whole
  && Js.truthy whole
  && (negb (Js.startsWith "0" whole) || String.eqb whole "0")
  && match Text.fraction_part s with
     | None => true
     | Some fraction =>
         Text.all Text.is_digit fraction
         && match Text.last fraction with
            | Some c => negb (Ascii.eqb c "0")
            | None => false
            end
     end.

(** The identifier of the default feed, in upper case. *)
Definition BTC_USD_upper : string :=
  "0x4CD1CAD962425681AF07B9254B7D804DE3CA3446FBFD1371BB258D2C75059812".

(** What a gateway answer may lack, as [fetchFeedData] tests it: an
    absent or empty [encoded], and no first element of
    [medianResponses]. *)
Definition lacks_encoded (q : OracleQuote.t) : bool :=
  match OracleQuote.encoded q with
  | Some e => negb (Js.truthy e)
  | None => true
  end.

Definition lacks_median (q : OracleQuote.t) : bool :=
  match OracleQuote.medianResponses q with
  | Some (_ :: _) => false
  | _ => true
  end.

(** A world whose environment differs in the two threshold variables only. *)
Definition with_thresholds (w : World) (age deviation : option string) : World :=
  {| env := {| RPC_URL := RPC_URL (env w);
               PRIVATE_KEY := PRIVATE_KEY (env w);
               NETWORK := NETWORK (env w);
               FEED_HASH := FEED_HASH (env w);
               MAX_PRICE_AGE := age;
               MAX_DEVIATION_BPS := deviation |};
     fs_existsSync := fs_existsSync w;
     fs_readDeployments := fs_readDeployments w;
     rpc_getBalance := rpc_getBalance w;
     crossbar_fetchOracleQuote := crossbar_fetchOracleQuote w;
     sb_getFee := sb_getFee w;
     pc_updatePrices := pc_updatePrices w;
     tx_wait := tx_wait w;
     pc_getPrice := pc_getPrice w;
     pc_isPriceFresh := pc_isPriceFresh w;
     pc_getPriceAge := pc_getPriceAge w;
     pc_maxPriceAge := pc_maxPriceAge w;
     pc_maxDeviationBps := pc_maxDeviationBps w |}.

(** ** A sample run

    A runtime and worlds at which the properties are exercised.  The
    runtime's renderings stand in for the engine's. *)

Module Sample.

Definition parse_integer (s : string) : option Z :=
  if Text.all Text.is_digit s && Js.truthy s
  then Some (Z.of_N (Text.number s)) else None.

Definition runtime : Runtime :=
  {| captureStack := fun msg => "Error: " +:+ msg;
     parseInt := parse_integer;
     BigInt := fun s =>
       match parse_integer s with
       | Some z => inr z
       | None => inl {| message := "Cannot convert " +:+ s +:+ " to a BigInt";
                        stack := None |}
       end;
     showNumber := Js.toString;
     showPercent := fun z => formatValue z 2;
     toISOString := fun ms => inr (Js.toString ms);
     formatEther := fun z => formatValue z 18;
     walletAddress := fun key =>
       if Js.truthy key then inr "0x1111111111111111111111111111111111111111"
       else inl {| message := "invalid private key"; stack := None |};
     invalidChainId :=
       {| message := "invalid BigNumberish value"; stack := None |} |}.

Definition environment : Env :=
  {| RPC_URL := None;
     PRIVATE_KEY := Some "0xabcdef0123456789";
     NETWORK := Some "monad-mainnet";
     FEED_HASH := None;
     MAX_PRICE_AGE := None;
     MAX_DEVIATION_BPS := None |}.

Definition deployments : gmap string (gmap string Deployment) :=
  {[ "monadTestnet" :=
       {[ "SwitchBoardTest" :=
            {| address := "0x2222222222222222222222222222222222222222" |} ]} ]}.

Definition quote : OracleQuote.t :=
  {| OracleQuote.encoded := Some "0xfeed";
     OracleQuote.medianResponses :=
       Some [ {| MedianResponse.value := "97000000000000000000000" |} ];
     OracleQuote.timestamp := 1700000000;
     OracleQuote.slot := 42;
     OracleQuote.oracleResponses := [tt; tt; tt] |}.

(** A world in which every request succeeds; the signer holds [balance]
    and the gateway contract asks [fee]. *)
Definition world (balance fee : Z) : World :=
  {| env := environment;
     fs_existsSync := true;
     fs_readDeployments := inr deployments;
     rpc_getBalance := fun _ => inr balance;
     crossbar_fetchOracleQuote := fun _ _ => inr quote;
     sb_getFee := fun _ _ => inr fee;
     pc_updatePrices := fun _ _ _ _ => inr {| Tx.hash := "0xaaaa" |};
     tx_wait := fun tx =>
       inr {| Receipt.blockNumber := 7; Receipt.gasUsed := 21000;
              Receipt.status := 1; Receipt.hash := Tx.hash tx |};
     pc_getPrice := fun _ _ => inr (97000000000000000000000, 1700000000, 42);
     pc_isPriceFresh := fun _ _ => inr true;
     pc_getPriceAge := fun _ _ => inr 3;
     pc_maxPriceAge := fun _ => inr 300;
     pc_maxDeviationBps := fun _ => inr 1000 |}.

(** The same world without the deployments file. *)
Definition world_without_file : World :=
  {| env := environment;
     fs_existsSync := false;
     fs_readDeployments :=
       inl {| message := "ENOENT: no such file or directory"; stack := None |};
     rpc_getBalance := rpc_getBalance (world 10 1);
     crossbar_fetchOracleQuote := crossbar_fetchOracleQuote (world 10 1);
     sb_getFee := sb_getFee (world 10 1);
     pc_updatePrices := pc_updatePrices (world 10 1);
     tx_wait := tx_wait (world 10 1);
     pc_getPrice := pc_getPrice (world 10 1);
     pc_isPriceFresh := pc_isPriceFresh (world 10 1);
     pc_getPriceAge := pc_getPriceAge (world 10 1);
     pc_maxPriceAge := pc_maxPriceAge (world 10 1);
     pc_maxDeviationBps := pc_maxDeviationBps (world 10 1) |}.

(** A gateway answer without median responses, and a world that gives it. *)
Definition quote_without_median : OracleQuote.t :=
  {| OracleQuote.encoded := Some "0xfeed";
     OracleQuote.medianResponses := Some [];
     OracleQuote.timestamp := 1700000000;
     OracleQuote.slot := 42;
     OracleQuote.oracleResponses := [] |}.

Definition world_with_quote (q : OracleQuote.t) : World :=
  {| env := environment;
     fs_existsSync := true;
     fs_readDeployments := inr deployments;
     rpc_getBalance := rpc_getBalance (world 10 1);
     crossbar_fetchOracleQuote := fun _ _ => inr q;
     sb_getFee := sb_getFee (world 10 1);
     pc_updatePrices := pc_updatePrices (world 10 1);
     tx_wait := tx_wait (world 10 1);
     pc_getPrice := pc_getPrice (world 10 1);
     pc_isPriceFresh := pc_isPriceFresh (world 10 1);
     pc_getPriceAge := pc_getPriceAge (world 10 1);
     pc_maxPriceAge := pc_maxPriceAge (world 10 1);
     pc_maxDeviationBps := pc_maxDeviationBps (world 10 1) |}.

End Sample.

(** ** Reading a trace *)

Definition is_console (e : Event) : bool :=
  match e with ConsoleLog _ | ConsoleError _ => true | _ => false end.

Definition is_file_read (e : Event) : bool :=
  match e with ReadDeployments _ => true | _ => false end.

Definition is_fee_query (e : Event) : bool :=
  match e with GetFee _ _ _ => true | _ => false end.

Definition is_price_query (e : Event) : bool :=
  match e with GetPrice _ _ _ => true | _ => false end.

(** The requests of a trace by their place in the workflow: the file
    test is 0, the file read 1, the balance query 2, and so on to the
    last read-back, 11. *)
Definition request_places (t : list Event) : list nat :=
  flat_map (fun e =>
    match e with
    | ConsoleLog _ | ConsoleError _ => []
    | ExistsSync _ => [0%nat]
    | ReadDeployments _ => [1%nat]
    | GetBalance _ _ => [2%nat]
    | FetchOracleQuote _ _ _ => [3%nat]
    | GetFee _ _ _ => [4%nat]
    | UpdatePrices _ _ _ _ _ => [5%nat]
    | Wait _ _ => [6%nat]
    | GetPrice _ _ _ => [7%nat]
    | IsPriceFresh _ _ _ => [8%nat]
    | GetPriceAge _ _ _ => [9%nat]
    | MaxPriceAge _ _ => [10%nat]
    | MaxDeviationBps _ _ => [11%nat]
    end) t.

(** After the first request that failed, only console lines follow. *)
Fixpoint silent_after_failure (t : list Event) : bool :=
  match t with
  | [] => true
  | e :: t' =>
      if is_failed_call e then forallb is_console t' else silent_after_failure t'
  end.

(** ** More sample worlds *)

Module Scenario.

Definition error (msg : string) : JsError := {| message := msg; stack := None |}.

Definition environment (key network : option string) : Env :=
  {| RPC_URL := None;
     PRIVATE_KEY := key;
     NETWORK := network;
     FEED_HASH := None;
     MAX_PRICE_AGE := None;
     MAX_DEVIATION_BPS := None |}.

(** The sample world with its environment, its deployments file, the
    gateway's answer, the status of the receipt and the timestamp of the
    stored price given; the signer holds 10 and the fee is 1. *)
Definition make (e : Env) (found : bool)
    (file : result (gmap string (gmap string Deployment)))
    (answer : result OracleQuote.t) (status timestamp : Z) : World :=
  {| env := e;
     fs_existsSync := found;
     fs_readDeployments := file;
     rpc_getBalance := rpc_getBalance (Sample.world 10 1);
     crossbar_fetchOracleQuote := fun _ _ => answer;
     sb_getFee := sb_getFee (Sample.world 10 1);
     pc_updatePrices := pc_updatePrices (Sample.world 10 1);
     tx_wait := fun tx =>
       inr {| Receipt.blockNumber := 7; Receipt.gasUsed := 21000;
              Receipt.status := status; Receipt.hash := Tx.hash tx |};
     pc_getPrice := fun _ _ => inr (97000000000000000000000, timestamp, 42);
     pc_isPriceFresh := pc_isPriceFresh (Sample.world 10 1);
     pc_getPriceAge := pc_getPriceAge (Sample.world 10 1);
     pc_maxPriceAge := pc_maxPriceAge (Sample.world 10 1);
     pc_maxDeviationBps := pc_maxDeviationBps (Sample.world 10 1) |}.

(** A deployments file that holds a record for the main network only. *)
Definition mainnet_only : gmap string (gmap string Deployment) :=
  {[ "monadMainnet" :=
       {[ "SwitchBoardTest" :=
            {| address := "0x3333333333333333333333333333333333333333" |} ]} ]}.

(** A gateway answer whose median value is no integer. *)
Definition quote_with_fraction : OracleQuote.t :=
  {| OracleQuote.encoded := Some "0xfeed";
     OracleQuote.medianResponses := Some [ {| MedianResponse.value := "97000.5" |} ];
     OracleQuote.timestamp := 1700000000;
     OracleQuote.slot := 42;
     OracleQuote.oracleResponses := [tt] |}.

(** The sample runtime with dates limited as in the language: a time
    beyond 8.64e15 milliseconds from the epoch is no date. *)
Definition strict_runtime : Runtime :=
  {| captureStack := captureStack Sample.runtime;
     parseInt := parseInt Sample.runtime;
     BigInt := BigInt Sample.runtime;
     showNumber := showNumber Sample.runtime;
     showPercent := showPercent Sample.runtime;
     toISOString := fun ms =>
       if (Z.abs ms <=? 8640000000000000)
       then inr (Js.toString ms)
       else inl (error "Invalid time value");
     formatEther := formatEther Sample.runtime;
     walletAddress := walletAddress Sample.runtime;
     invalidChainId := invalidChainId Sample.runtime |}.

Definition key : string := "0xabcdef0123456789".

(** The runs the properties are exercised on. *)
Definition no_key : World :=
  make (environment None None) true (inr Sample.deployments) (inr Sample.quote)
    1 1700000000.

Definition hardhat : World :=
  make (environment (Some key) (Some "hardhat")) true (inr Sample.deployments)
    (inr Sample.quote) 1 1700000000.

(** The selector names a property every object inherits. *)
Definition inherited_name : World :=
  make (environment (Some key) (Some "constructor")) true (inr Sample.deployments)
    (inr Sample.quote) 1 1700000000.

Definition no_file : World :=
  make (environment (Some key) None) false
    (inl (error "ENOENT: no such file or directory")) (inr Sample.quote)
    1 1700000000.

Definition bad_json : World :=
  make (environment (Some key) None) true
    (inl (error "Unexpected end of JSON input")) (inr Sample.quote) 1 1700000000.

Definition mainnet_record_only : World :=
  make (environment (Some key) (Some "monad-mainnet")) true (inr mainnet_only)
    (inr Sample.quote) 1 1700000000.

Definition gateway_down : World :=
  make (environment (Some key) None) true (inr Sample.deployments)
    (inl (error "503 Service Unavailable")) 1 1700000000.

Definition fractional_quote : World :=
  make (environment (Some key) None) true (inr Sample.deployments)
    (inr quote_with_fraction) 1 1700000000.

Definition reverted : World :=
  make (environment (Some key) None) true (inr Sample.deployments)
    (inr Sample.quote) 0 1700000000.

Definition far_future : World :=
  make (environment (Some key) None) true (inr Sample.deployments)
    (inr Sample.quote) 1 10000000000000000.

Definition short_key : World :=
  make (environment (Some "abc") None) true (inr Sample.deployments)
    (inr Sample.quote) 1 1700000000.

(** What [fetchFeedData] returns on the sample world. *)
Definition feed_data : FeedData.t :=
  {| FeedData.feedHash := BTC_USD;
     FeedData.value := "97000000000000000000000";
     FeedData.timestamp := 1700000000;
     FeedData.slot := 42;
     FeedData.numOracles := 3;
     FeedData.encoded := "0xfeed" |}.

End Scenario.

(** * Properties *)

(** ** The deployment lookup key *)

Lemma networkKey_constant (network : string) : networkKey network = "monadTestnet".
Proof. unfold networkKey. now destruct (String.eqb network "monad-testnet"). Qed.

(** The key computed at run.ts:203 is ['monadTestnet'] for every network
    selector, ['monad-mainnet'] included. *)
Theorem networkKey_fixed :
  forall network : string,
    networkKey network = "monadTestnet"
    /\ networkKey "monad-mainnet" = networkKey network.
Proof.
  intros network. now rewrite !networkKey_constant.
Qed.

(** On the sample run the selector is ['monad-mainnet'], the file has an
    entry for ['monadTestnet'] only, and the workflow goes on with it. *)
Example mainnet_run_reads_testnet_deployment :
  network (config Sample.runtime (Sample.world 10 1)) = "monad-mainnet"
  /\ dom Sample.deployments = ({[ "monadTestnet" ]} : gset string)
  /\ In (ConsoleLog
           "✅ Price Consumer Contract: 0x2222222222222222222222222222222222222222")
        (fst (main Sample.runtime (Sample.world 10 1)))
  /\ snd (main Sample.runtime (Sample.world 10 1)) = 0.
Proof.
  split; [reflexivity|]. split; [vm_compute; reflexivity|].
  split; [|vm_compute; reflexivity].
  vm_compute. repeat first [left; reflexivity | right].
Qed.

(** ** Feed-identifier normalization *)

Lemma startsWith_append (p s : string) : Js.startsWith p (p +:+ s) = true.
Proof.
  induction p as [|a p IH]; simpl; [reflexivity|].
  now rewrite Ascii.eqb_refl.
Qed.

Lemma normalizeFeedHash_prefixed (s : string) :
  Js.startsWith "0x" (normalizeFeedHash s) = true.
Proof.
  unfold normalizeFeedHash.
  destruct (Js.startsWith "0x" s) eqn:E; [exact E|].
  apply startsWith_append.
Qed.

(** C2 (as stated, refuted): an identifier written in upper case is a
    feed identifier the script accepts, and its normal form is the
    identifier itself, upper-case digits included. *)
Lemma normalizeFeedHash_keeps_upper_case :
  Text.is_feed_id BTC_USD_upper = true
  /\ normalizeFeedHash BTC_USD_upper = BTC_USD_upper
  /\ Text.lowercase_hex (normalizeFeedHash BTC_USD_upper) = false
  /\ Text.lowercase_hex (normalizeFeedHash "4CD1") = false.
Proof. repeat split; reflexivity. Qed.

(** C2 (amended): the normal form starts with ["0x"] and is the input,
    behind a ["0x"] when the input had none; no character changes case,
    so the normal form is in lower case exactly when the input is. *)
Theorem normalizeFeedHash_prefix_only :
  forall s : string,
    Js.startsWith "0x" (normalizeFeedHash s) = true
    /\ Js.slice_from 2 (normalizeFeedHash s)
       = (if Js.startsWith "0x" s then Js.slice_from 2 s else s)
    /\ Text.lowercase_hex (normalizeFeedHash s) = Text.lowercase_hex s.
Proof.
  intros s. split; [apply normalizeFeedHash_prefixed|].
  unfold normalizeFeedHash.
  destruct (Js.startsWith "0x" s); split; reflexivity.
Qed.

(** C4: normalization is idempotent; an identifier that carries the
    prefix is returned as it is, and one without it gets the prefix
    once. *)
Theorem normalizeFeedHash_idempotent :
  forall s : string,
    normalizeFeedHash (normalizeFeedHash s) = normalizeFeedHash s
    /\ (Js.startsWith "0x" s = true -> normalizeFeedHash s = s)
    /\ (Js.startsWith "0x" s = false ->
        normalizeFeedHash s = "0x" +:+ s
        /\ Js.slice_from 2 (normalizeFeedHash s) = s).
Proof.
  intros s. split.
  - unfold normalizeFeedHash at 1.
    now rewrite normalizeFeedHash_prefixed.
  - unfold normalizeFeedHash. split; intros ->; [reflexivity|].
    split; reflexivity.
Qed.

Example normalizeFeedHash_default_feed :
  normalizeFeedHash BTC_USD = BTC_USD
  /\ normalizeFeedHash (Js.slice_from 2 BTC_USD) = BTC_USD
  /\ String.length (Js.slice_from 2 BTC_USD) = 64%nat.
Proof. repeat split. Qed.

(** ** Strings *)

Lemma append_cons (x : ascii) (a b : string) :
  String x a +:+ b = String x (a +:+ b).
Proof. reflexivity. Qed.

Lemma append_assoc (a b c : string) : (a +:+ b) +:+ c = a +:+ (b +:+ c).
Proof.
  induction a as [|x a IH]; [reflexivity|].
  now rewrite !append_cons, IH.
Qed.

Lemma length_append (a b : string) :
  String.length (a +:+ b) = (String.length a + String.length b)%nat.
Proof.
  induction a as [|x a IH]; [reflexivity|].
  rewrite append_cons. simpl. now rewrite IH.
Qed.

Lemma length_repeat (c : ascii) (n : nat) : String.length (Js.repeat c n) = n.
Proof. induction n as [|n IH]; simpl; [reflexivity | now rewrite IH]. Qed.

Lemma all_append (p : ascii -> bool) (a b : string) :
  Text.all p (a +:+ b) = Text.all p a && Text.all p b.
Proof.
  induction a as [|x a IH]; [reflexivity|].
  rewrite append_cons. simpl. now rewrite IH, andb_assoc.
Qed.

(** ** Decimal numerals *)

Section Numerals.

Local Open Scope N_scope.

Lemma digits_acc (fuel : nat) (n : N) (acc : string) :
  Js.digits fuel n acc = Js.digits fuel n EmptyString +:+ acc.
Proof.
  revert n acc. induction fuel as [|fuel IH]; intros n acc; simpl; [reflexivity|].
  destruct (n <? 10); [reflexivity|].
  rewrite (IH _ (String _ acc)), (IH _ (String _ EmptyString)).
  rewrite append_assoc. reflexivity.
Qed.

Lemma digits_fuel (f1 f2 : nat) (n : N) (acc : string) :
  n < 2 ^ N.of_nat (S f1) -> n < 2 ^ N.of_nat (S f2) ->
  Js.digits (S f1) n acc = Js.digits (S f2) n acc.
Proof.
  revert f2 n acc. induction f1 as [|f1 IH]; intros f2 n acc H1 H2.
  - simpl. destruct (n <? 10) eqn:E; [reflexivity|].
    apply N.ltb_ge in E. simpl in H1. lia.
  - cbn [Js.digits]. destruct (n <? 10) eqn:E; [reflexivity|].
    apply N.ltb_ge in E.
    destruct f2 as [|f2]; [simpl in H2; lia|].
    apply IH.
    + rewrite Nat2N.inj_succ, N.pow_succ_r' in H1.
      apply N.Div0.div_lt_upper_bound. lia.
    + rewrite Nat2N.inj_succ, N.pow_succ_r' in H2.
      apply N.Div0.div_lt_upper_bound. lia.
Qed.

Lemma lt_pow2_log2 (n : N) : n < 2 ^ N.of_nat (S (N.to_nat (N.log2 n))).
Proof.
  rewrite Nat2N.inj_succ, N2Nat.id.
  destruct (N.eq_dec n 0) as [->|Hn]; [reflexivity|].
  apply N.log2_spec. lia.
Qed.

(** The numeral of a number, one digit at a time. *)
Lemma N_toString_eq (n : N) :
  Js.N_toString n =
  if n <? 10 then String (Js.digit n) EmptyString
  else Js.N_toString (n / 10) +:+ String (Js.digit (n mod 10)) EmptyString.
Proof.
  unfold Js.N_toString at 1. cbn [Js.digits].
  destruct (n <? 10) eqn:E.
  - apply N.ltb_lt in E. now rewrite N.mod_small.
  - apply N.ltb_ge in E. rewrite digits_acc. f_equal.
    assert (Hlog : N.log2 n <> 0).
    { intros H0. pose proof (lt_pow2_log2 n) as H. rewrite H0 in H. simpl in H. lia. }
    destruct (N.to_nat (N.log2 n)) as [|f] eqn:Ef; [lia|].
    unfold Js.N_toString. apply digits_fuel.
    + pose proof (lt_pow2_log2 n) as H. rewrite Ef in H.
      rewrite Nat2N.inj_succ, N.pow_succ_r' in H.
      apply N.Div0.div_lt_upper_bound. lia.
    + apply lt_pow2_log2.
Qed.

Lemma digit_code (k : N) : k < 10 -> N_of_ascii (Js.digit k) = 48 + k.
Proof.
  intros Hk. unfold Js.digit. apply N_ascii_embedding. lia.
Qed.

Lemma digit_is_digit (k : N) : k < 10 -> Text.is_digit (Js.digit k) = true.
Proof.
  intros Hk. unfold Text.is_digit. rewrite digit_code by exact Hk.
  apply andb_true_intro. split; apply N.leb_le; lia.
Qed.

Lemma number_from_append (acc : N) (a b : string) :
  Text.number_from acc (a +:+ b) = Text.number_from (Text.number_from acc a) b.
Proof.
  revert acc. induction a as [|x a IH]; intros acc; [reflexivity|].
  rewrite append_cons. simpl. apply IH.
Qed.

Lemma number_N_toString (n : N) : Text.number (Js.N_toString n) = n.
Proof.
  induction n as [n IH] using (well_founded_induction N.lt_wf_0).
  rewrite N_toString_eq. destruct (n <? 10) eqn:E.
  - apply N.ltb_lt in E. unfold Text.number. simpl.
    rewrite digit_code by exact E. lia.
  - apply N.ltb_ge in E. unfold Text.number in *.
    rewrite number_from_append, IH by (apply N.Div0.div_lt_upper_bound; lia).
    simpl. rewrite digit_code by (apply N.mod_lt; lia).
    pose proof (N.Div0.div_mod n 10) as H. clear IH.
    generalize dependent (n / 10); generalize dependent (n mod 10); intros; lia.
Qed.

Lemma digits_N_toString (n : N) : Text.all Text.is_digit (Js.N_toString n) = true.
Proof.
  induction n as [n IH] using (well_founded_induction N.lt_wf_0).
  rewrite N_toString_eq. destruct (n <? 10) eqn:E.
  - apply N.ltb_lt in E. simpl. now rewrite digit_is_digit.
  - apply N.ltb_ge in E.
    rewrite all_append, IH by (apply N.Div0.div_lt_upper_bound; lia).
    simpl. now rewrite digit_is_digit by (apply N.mod_lt; lia).
Qed.

Lemma N_toString_not_empty (n : N) : (0 < String.length (Js.N_toString n))%nat.
Proof.
  rewrite N_toString_eq. destruct (n <? 10); [simpl; lia|].
  rewrite length_append. simpl. lia.
Qed.

Lemma length_N_toString (d : nat) (n : N) :
  0 < n -> n < 10 ^ N.of_nat d -> (String.length (Js.N_toString n) <= d)%nat.
Proof.
  revert n. induction d as [|d IH]; intros n Hpos Hlt.
  - simpl in Hlt. lia.
  - rewrite N_toString_eq. destruct (n <? 10) eqn:E; [simpl; lia|].
    apply N.ltb_ge in E. rewrite length_append. simpl.
    rewrite Nat2N.inj_succ, N.pow_succ_r' in Hlt.
    assert (String.length (Js.N_toString (n / 10)) <= d)%nat; [|lia].
    apply IH.
    + apply N.div_str_pos. lia.
    + apply N.Div0.div_lt_upper_bound. lia.
Qed.

Lemma number_from_zeros (acc : N) (k : nat) :
  Text.number_from acc (Js.repeat "0" k) = acc * 10 ^ N.of_nat k.
Proof.
  revert acc. induction k as [|k IH]; intros acc.
  - simpl. lia.
  - cbn [Js.repeat Text.number_from]. rewrite IH.
    rewrite Nat2N.inj_succ, N.pow_succ_r'.
    change (N_of_ascii "0") with 48. lia.
Qed.

Lemma number_padStart (d : nat) (s : string) :
  Text.number (Js.padStart d "0" s) = Text.number s.
Proof.
  unfold Text.number, Js.padStart.
  now rewrite number_from_append, number_from_zeros.
Qed.

Lemma length_padStart (d : nat) (c : ascii) (s : string) :
  (String.length s <= d)%nat -> String.length (Js.padStart d c s) = d.
Proof.
  intros H. unfold Js.padStart. rewrite length_append, length_repeat. lia.
Qed.

(** What [trimEndZeros] removes is a run of zeros at the end. *)
Lemma trimEndZeros_split (s : string) :
  s = Js.trimEndZeros s
      +:+ Js.repeat "0" (String.length s - String.length (Js.trimEndZeros s)).
Proof.
  induction s as [|c s IH]; [reflexivity|].
  cbn [Js.trimEndZeros].
  destruct (Js.trimEndZeros s) as [|t ts] eqn:Et.
  - change (s = Js.repeat "0" (String.length s - 0)) in IH.
    rewrite Nat.sub_0_r in IH.
    destruct (Ascii.eqb c "0") eqn:Ec.
    + apply Ascii.eqb_eq in Ec. subst c.
      change (String "0" s = String "0" (Js.repeat "0" (String.length s))).
      now rewrite <- IH.
    + change (String c s = String c (Js.repeat "0" (String.length s - 0))).
      now rewrite Nat.sub_0_r, <- IH.
  - rewrite append_cons. f_equal.
    cbn [String.length] in *. exact IH.
Qed.

Lemma length_trimEndZeros (s : string) :
  (String.length (Js.trimEndZeros s) <= String.length s)%nat.
Proof.
  rewrite (trimEndZeros_split s) at 2. rewrite length_append. lia.
Qed.

Lemma last_trimEndZeros (s : string) (c : ascii) :
  Text.last (Js.trimEndZeros s) = Some c -> c <> "0"%char.
Proof.
  revert c. induction s as [|a s IH]; intros c; [discriminate|].
  cbn [Js.trimEndZeros].
  destruct (Js.trimEndZeros s) as [|t ts] eqn:Et.
  - destruct (Ascii.eqb a "0") eqn:Ea; [discriminate|].
    simpl. intros [= <-]. now apply Ascii.eqb_neq in Ea.
  - intros H. apply IH. exact H.
Qed.

Lemma all_trimEndZeros (p : ascii -> bool) (s : string) :
  Text.all p s = true -> Text.all p (Js.trimEndZeros s) = true.
Proof.
  intros H. rewrite (trimEndZeros_split s), all_append in H.
  now apply andb_prop in H.
Qed.

(** A numeral that is not zero is not trimmed away. *)
Lemma trimEndZeros_number (s : string) :
  Text.number s
  = Text.number (Js.trimEndZeros s)
    * 10 ^ N.of_nat (String.length s - String.length (Js.trimEndZeros s)).
Proof.
  rewrite (trimEndZeros_split s) at 1. unfold Text.number.
  now rewrite number_from_append, number_from_zeros.
Qed.

End Numerals.

(** ** Fixed-point formatting *)

Lemma toString_nonneg (z : Z) : 0 <= z -> Js.toString z = Js.N_toString (Z.to_N z).
Proof. destruct z as [|p|p]; intros H; [reflexivity | reflexivity | lia]. Qed.

Lemma digit_not_point (c : ascii) : Text.is_digit c = true -> Ascii.eqb c "." = false.
Proof.
  intros H. destruct (Ascii.eqb_spec c ".") as [->|]; [discriminate H | reflexivity].
Qed.

Lemma digit_not_minus (c : ascii) : Text.is_digit c = true -> Ascii.eqb "-" c = false.
Proof.
  intros H. destruct (Ascii.eqb_spec "-" c) as [<-|]; [discriminate H | reflexivity].
Qed.

Lemma digits_no_point (s : string) :
  Text.all Text.is_digit s = true ->
  Text.contains "." s = false /\ Text.fraction_part s = None /\ Text.whole_part s = s.
Proof.
  induction s as [|c s IH]; intros H; [repeat split|].
  simpl in H. apply andb_prop in H as [Hc Hs].
  destruct (IH Hs) as (IH1 & IH2 & IH3). simpl.
  rewrite (digit_not_point c Hc), IH1, IH2, IH3. repeat split.
Qed.

Lemma digits_then_point (a b : string) :
  Text.all Text.is_digit a = true ->
  Text.contains "." (a +:+ "." +:+ b) = true
  /\ Text.fraction_part (a +:+ "." +:+ b) = Some b
  /\ Text.whole_part (a +:+ "." +:+ b) = a.
Proof.
  induction a as [|c a IH]; intros H; [repeat split|].
  simpl in H. apply andb_prop in H as [Hc Hs].
  destruct (IH Hs) as (IH1 & IH2 & IH3).
  rewrite append_cons. simpl.
  rewrite (digit_not_point c Hc), IH1, IH2, IH3. repeat split.
Qed.

Lemma digits_not_signed (s : string) :
  Text.all Text.is_digit s = true -> Js.startsWith "-" s = false.
Proof.
  destruct s as [|c s]; intros H; [reflexivity|].
  simpl in H. apply andb_prop in H as [Hc _].
  cbn [Js.startsWith]. now rewrite (digit_not_minus c Hc).
Qed.

Lemma all_repeat (p : ascii -> bool) (c : ascii) (n : nat) :
  p c = true -> Text.all p (Js.repeat c n) = true.
Proof. intros H. induction n as [|n IH]; simpl; [reflexivity | now rewrite H, IH]. Qed.

Section FormatValue.

Variables (value : Z) (decimals : nat).
Hypothesis value_nonneg : 0 <= value.

Local Abbreviation divisor := (10 ^ Z.of_nat decimals).
Local Abbreviation whole := (Z.quot value divisor).
Local Abbreviation fraction := (Z.rem value divisor).
Local Abbreviation padded := (Js.padStart decimals "0" (Js.toString fraction)).

Lemma divisor_pos : 0 < divisor.
Proof. apply Z.pow_pos_nonneg; lia. Qed.

Lemma whole_nonneg : 0 <= whole.
Proof. apply Z.quot_pos; [exact value_nonneg | apply divisor_pos]. Qed.

Lemma fraction_range : 0 <= fraction < divisor.
Proof. apply Z.rem_bound_pos; [exact value_nonneg | apply divisor_pos]. Qed.

Lemma value_split : value = whole * divisor + fraction.
Proof.
  pose proof (Z.quot_rem' value divisor). lia.
Qed.

Lemma formatValue_eq :
  formatValue value decimals =
  if fraction =? 0 then Js.toString whole
  else Js.toString whole +:+ "." +:+ Js.trimEndZeros padded.
Proof. reflexivity. Qed.

Lemma whole_digits : Text.all Text.is_digit (Js.toString whole) = true.
Proof. rewrite toString_nonneg by apply whole_nonneg. apply digits_N_toString. Qed.

Lemma padded_digits : Text.all Text.is_digit padded = true.
Proof.
  unfold Js.padStart. rewrite all_append.
  rewrite all_repeat by reflexivity.
  rewrite toString_nonneg by apply fraction_range. apply digits_N_toString.
Qed.

Lemma padded_number : Text.number padded = Z.to_N fraction.
Proof.
  rewrite number_padStart.
  rewrite toString_nonneg by apply fraction_range. apply number_N_toString.
Qed.

Lemma padded_length : fraction <> 0 -> String.length padded = decimals.
Proof.
  intros Hne. apply length_padStart.
  rewrite toString_nonneg by apply fraction_range.
  pose proof fraction_range as Hr.
  apply length_N_toString; [lia|].
  apply N2Z.inj_lt. rewrite Z2N.id by lia.
  rewrite N2Z.inj_pow, nat_N_Z. exact (proj2 Hr).
Qed.

Lemma trimmed_not_empty : fraction <> 0 -> Js.trimEndZeros padded <> EmptyString.
Proof.
  intros Hne Hempty. pose proof padded_number as Hn.
  rewrite trimEndZeros_number, Hempty in Hn.
  pose proof fraction_range. unfold Text.number in Hn. simpl in Hn. lia.
Qed.

End FormatValue.

Lemma startsWith_char_append (c : ascii) (a b : string) :
  Js.truthy a = true ->
  Js.startsWith (String c EmptyString) (a +:+ b)
  = Js.startsWith (String c EmptyString) a.
Proof.
  destruct a as [|x a]; intros H; [discriminate H|].
  rewrite append_cons. cbn [Js.startsWith]. now destruct (Ascii.eqb c x).
Qed.

Lemma N_toString_truthy (n : N) : Js.truthy (Js.N_toString n) = true.
Proof.
  pose proof (N_toString_not_empty n) as H.
  destruct (Js.N_toString n); [cbn in H; lia | reflexivity].
Qed.

(** The numeral of a number has no zero in front. *)
Lemma N_toString_no_leading_zero (n : N) :
  Js.startsWith "0" (Js.N_toString n) = true -> Js.N_toString n = "0".
Proof.
  induction n as [n IH] using (well_founded_induction N.lt_wf_0).
  intros H. rewrite N_toString_eq in *. destruct (n <? 10)%N eqn:E.
  - cbn [Js.startsWith] in H.
    destruct (Ascii.eqb_spec "0" (Js.digit n)) as [<-|]; [reflexivity | discriminate H].
  - exfalso. apply N.ltb_ge in E.
    rewrite startsWith_char_append in H by apply N_toString_truthy.
    assert (Hlt : (n / 10 < n)%N) by (apply N.Div0.div_lt_upper_bound; lia).
    pose proof (IH _ Hlt H) as Hzero.
    pose proof (number_N_toString (n / 10)) as Hnum.
    rewrite Hzero in Hnum. unfold Text.number in Hnum. cbn in Hnum.
    assert (0 < n / 10)%N by (apply N.div_str_pos; lia). lia.
Qed.

Lemma N_toString_canonical (n : N) :
  Text.all Text.is_digit (Js.N_toString n) = true
  /\ Js.truthy (Js.N_toString n) = true
  /\ negb (Js.startsWith "0" (Js.N_toString n)) || String.eqb (Js.N_toString n) "0"
     = true.
Proof.
  split; [apply digits_N_toString|]. split; [apply N_toString_truthy|].
  destruct (Js.startsWith "0" (Js.N_toString n)) eqn:E; [|reflexivity].
  now rewrite (N_toString_no_leading_zero n E).
Qed.

(** C10: for a non-negative value the formatted string is a canonical
    decimal numeral: digits without a zero in front, then, exactly when
    the value is no multiple of [10^decimals], a point and digits, which
    are never none and never end in ["0"]. *)
Theorem formatValue_canonical :
  forall (value : Z) (decimals : nat),
    0 <= value ->
    canonical_decimal (formatValue value decimals) = true
    /\ (Text.contains "." (formatValue value decimals) = true
        <-> ~ (10 ^ Z.of_nat decimals | value))
    /\ (forall f : string,
          Text.fraction_part (formatValue value decimals) = Some f ->
          f <> EmptyString /\ Text.last f <> Some "0"%char
          /\ Text.all Text.is_digit f = true).
Proof.
  intros value decimals Hv.
  pose proof (divisor_pos decimals) as Hd.
  pose proof (whole_digits value decimals Hv) as Hw.
  pose proof (whole_nonneg value decimals Hv) as Hq.
  pose proof (N_toString_canonical (Z.to_N (Z.quot value (10 ^ Z.of_nat decimals))))
    as (_ & Hne & Hlead).
  rewrite <- toString_nonneg in Hne, Hlead by exact Hq.
  unfold canonical_decimal. rewrite formatValue_eq.
  assert (Hdiv : Z.rem value (10 ^ Z.of_nat decimals) = 0
                 <-> (10 ^ Z.of_nat decimals | value))
    by (apply Z.rem_divide; lia).
  destruct (Z.eqb_spec (Z.rem value (10 ^ Z.of_nat decimals)) 0) as [E|E].
  - destruct (digits_no_point _ Hw) as (Hc & Hf & Hwhole).
    rewrite Hc, Hf, Hwhole, Hw, Hne, Hlead. split; [reflexivity|]. split.
    + split; [discriminate|]. intros Hn. exfalso. apply Hn, Hdiv, E.
    + discriminate.
  - set (t := Js.trimEndZeros
                (Js.padStart decimals "0"
                   (Js.toString (Z.rem value (10 ^ Z.of_nat decimals))))).
    destruct (digits_then_point _ t Hw) as (Hc & Hf & Hwhole).
    assert (Ht : Text.all Text.is_digit t = true)
      by (apply all_trimEndZeros, padded_digits; exact Hv).
    assert (Hlast : Text.last t <> Some "0"%char)
      by (intros Hl; now apply last_trimEndZeros in Hl).
    assert (Hnonempty : t <> EmptyString) by now apply trimmed_not_empty.
    rewrite Hc, Hf, Hwhole, Hw, Hne, Hlead, Ht. split; [|split].
    + destruct (Text.last t) as [c|] eqn:El.
      * destruct (Ascii.eqb_spec c "0") as [->|]; [now contradiction Hlast | reflexivity].
      * destruct t as [|x [|y r]]; [contradiction | discriminate El |].
        exfalso. clear -El. revert x y El.
        induction r as [|z r IH]; intros x y El; [discriminate El|].
        apply (IH y z). exact El.
    + split; [|reflexivity]. intros _ Hn. apply E, Hdiv, Hn.
    + intros f [= <-]. repeat split; assumption.
Qed.

Lemma formatValue_canonical_witness :
  0 <= 1500000000000000000
  /\ canonical_decimal (formatValue 1500000000000000000 18) = true
  /\ (Text.contains "." (formatValue 1500000000000000000 18) = true
      <-> ~ (10 ^ Z.of_nat 18 | 1500000000000000000))
  /\ (forall f : string,
        Text.fraction_part (formatValue 1500000000000000000 18) = Some f ->
        f <> EmptyString /\ Text.last f <> Some "0"%char
        /\ Text.all Text.is_digit f = true).
Proof.
  assert (H : 0 <= 1500000000000000000) by lia.
  split; [exact H|].
  exact (formatValue_canonical 1500000000000000000 18 H).
Defined.

(** What the property rules out: the empty string and a bare fraction
    are no canonical numerals, and neither are a padded integer or a
    fraction that ends in a zero. *)
Example canonical_decimal_samples :
  canonical_decimal "" = false
  /\ canonical_decimal ".1" = false
  /\ canonical_decimal "01" = false
  /\ canonical_decimal "1." = false
  /\ canonical_decimal "1.50" = false
  /\ canonical_decimal "0.-5" = false
  /\ canonical_decimal "0" = true
  /\ canonical_decimal "1.5" = true
  /\ canonical_decimal (formatValue 10 18) = true.
Proof. repeat split. Qed.

(** For a non-negative value, reading the formatted string back at the
    same scale gives the value. *)
Lemma formatValue_parseValue_nonneg (value : Z) (decimals : nat) :
  0 <= value -> parseValue (formatValue value decimals) decimals = Some value.
Proof.
  intros Hv.
  pose proof (whole_digits value decimals Hv) as Hw.
  pose proof (whole_nonneg value decimals Hv) as Hq.
  pose proof (fraction_range value decimals Hv) as Hr.
  pose proof (value_split value decimals) as Hsplit.
  pose proof (padded_number value decimals Hv) as Hnum.
  assert (Hwn : Text.number (Js.toString (Z.quot value (10 ^ Z.of_nat decimals)))
                = Z.to_N (Z.quot value (10 ^ Z.of_nat decimals))).
  { rewrite toString_nonneg by exact Hq. apply number_N_toString. }
  assert (Hne : Js.truthy (Js.toString (Z.quot value (10 ^ Z.of_nat decimals))) = true).
  { rewrite toString_nonneg by exact Hq.
    pose proof (N_toString_not_empty (Z.to_N (Z.quot value (10 ^ Z.of_nat decimals)))).
    destruct (Js.N_toString _); [simpl in *; lia | reflexivity]. }
  assert (Hpow : Z.of_N (10 ^ N.of_nat decimals) = 10 ^ Z.of_nat decimals)
    by now rewrite N2Z.inj_pow, nat_N_Z.
  rewrite formatValue_eq. unfold parseValue.
  destruct (Z.eqb_spec (Z.rem value (10 ^ Z.of_nat decimals)) 0) as [E|E].
  - rewrite (digits_not_signed _ Hw).
    destruct (digits_no_point _ Hw) as (_ & -> & ->).
    rewrite Hw, Hne. simpl. rewrite Hwn. f_equal.
    unfold Text.number at 1. simpl.
    rewrite N.add_0_r, N2Z.inj_mul, Z2N.id, Hpow by exact Hq. lia.
  - set (t := Js.trimEndZeros _).
    assert (Hsign : Js.startsWith "-" (Js.toString (Z.quot value (10 ^ Z.of_nat decimals))
                                       +:+ "." +:+ t) = false).
    { destruct (Js.toString _) as [|c r] eqn:Es; [discriminate Hne|].
      simpl in Hw. apply andb_prop in Hw as [Hc _].
      rewrite append_cons. cbn [Js.startsWith]. now rewrite (digit_not_minus c Hc). }
    rewrite Hsign.
    destruct (digits_then_point _ t Hw) as (_ & -> & ->).
    assert (Ht : Text.all Text.is_digit t = true)
      by (apply all_trimEndZeros, padded_digits; exact Hv).
    pose proof (length_trimEndZeros
                  (Js.padStart decimals "0"
                     (Js.toString (Z.rem value (10 ^ Z.of_nat decimals))))) as Hlen.
    rewrite (padded_length value decimals Hv E) in Hlen. fold t in Hlen.
    cbv beta iota. rewrite Hw, Ht.
    destruct (Nat.leb_spec (String.length t) decimals) as [_|]; [|lia].
    assert (Hbody : Js.truthy (Js.toString (Z.quot value (10 ^ Z.of_nat decimals))
                               +:+ "." +:+ t) = true).
    { destruct (Js.toString _); reflexivity. }
    rewrite Hbody. simpl. f_equal.
    rewrite trimEndZeros_number, (padded_length value decimals Hv E) in Hnum.
    fold t in Hnum. rewrite Hnum, Hwn.
    rewrite N2Z.inj_add, N2Z.inj_mul, !Z2N.id, Hpow by lia. lia.
Qed.

(** C3: on negative values formatting loses the value.  The fraction
    keeps its own sign and is not padded past it, so minus one half and
    minus one twentieth are both written ["0.-5"]; no reading of that
    string gives back both, and the fixed-point reading rejects it. *)
Theorem formatValue_negative_collision :
  formatValue (-500000000000000000) default_decimals = "0.-5"
  /\ formatValue (-50000000000000000) default_decimals = "0.-5"
  /\ parseValue (formatValue (-500000000000000000) default_decimals)
       default_decimals = None
  /\ formatValue (-1500000000000000000) default_decimals = "-1.-5".
Proof. repeat split; vm_compute; reflexivity. Qed.

(** ** The workflow *)

(** Running the workflow symbolically in a hypothesis [H : m = (t, r)]:
    unfold the monad, then split on the next answer the run depends on,
    until the run has ended. *)
Ltac unfold_monad H :=
  unfold bind, tryCatch, throw_if, lift, request, existsSync,
    console_log, console_error, ret, throw in H;
  cbv beta iota zeta in H.

(** The answer a stuck computation is waiting for: the innermost
    scrutinee, read from the head. *)
Ltac waiting_for t k :=
  lazymatch t with
  | match ?x with inl _ => _ | inr _ => _ end => waiting_for x k
  | match ?x with Some _ => _ | None => _ end => waiting_for x k
  | if ?b then _ else _ => waiting_for b k
  | let '(_, _) := ?x in _ => waiting_for x k
  | (_, _) => fail "the run has ended"
  | _ => k t
  end.

Ltac step_run H :=
  lazymatch type of H with
  | ?m = _ => waiting_for m ltac:(fun x => destruct x eqn:?)
  end;
  cbv beta iota zeta delta [negb] in H.

Ltac run_in H := unfold_monad H; cbv delta [negb] in H; repeat step_run H.

(** At the end of a run: the trace as a list, and what a filter keeps of it. *)
Ltac end_run H :=
  apply pair_equal_spec in H as [<- H];
  try discriminate H;
  try match type of H with _ = ?r => is_var r; subst r end.

Ltac read_trace :=
  cbn [app In List.filter List.existsb List.length flat_map stderr
       is_network_call is_gateway_call is_submission is_failed_call is_error
       negb orb andb fst snd] in *.

Lemma in_filter (p : Event -> bool) (e : Event) (t : list Event) :
  In e t -> p e = true -> In e (List.filter p t).
Proof. intros Hin Hp. apply filter_In. now split. Qed.

Lemma stderr_app (t u : list Event) : stderr (t ++ u) = (stderr t ++ stderr u)%list.
Proof. unfold stderr. apply flat_map_app. Qed.

(** C1: whatever the network selector is, ['monad-mainnet'] included, the
    workflow reads the deployments document under ['monadTestnet']: once
    the document is read, the run goes on with the [SwitchBoardTest]
    record found under that key, and without one it ends with the error
    that names that key. *)
Theorem deployment_lookup_key_fixed :
  forall (rt : Runtime) (w : World)
         (deployments : gmap string (gmap string Deployment)),
    In (ReadDeployments (inr deployments)) (fst (updatePrices rt w)) ->
    networkKey (network (config rt w)) = "monadTestnet"
    /\ match deployments !! "monadTestnet" ≫= (.!! "SwitchBoardTest") with
       | Some deployment =>
           In (ConsoleLog ("✅ Price Consumer Contract: " +:+ address deployment))
              (fst (updatePrices rt w))
       | None =>
           snd (updatePrices rt w)
           = inl (newError rt
                    "❌ No deployment found for monadTestnet. Please deploy the contract first.")
       end.
Proof.
  intros rt w deployments Hin. split; [apply networkKey_constant|].
  destruct (updatePrices rt w) as [t r] eqn:Hrun. cbn [fst snd] in *.
  unfold updatePrices, fetchFeedData, loadDeployments, ethers_Network,
    NETWORKS_read in Hrun.
  rewrite networkKey_constant in Hrun.
  apply (in_filter is_file_read) in Hin; [|reflexivity].
  run_in Hrun; end_run Hrun; cbn [app In List.filter is_file_read] in *;
    destruct_or?; simplify_eq; try contradiction.
  all: match goal with H : _ ≫= _ = _ |- _ => rewrite H end.
  all: first [reflexivity | repeat first [left; reflexivity | right]].
Qed.

Lemma deployment_lookup_key_fixed_witness :
  network (config Sample.runtime (Sample.world 10 1)) = "monad-mainnet"
  /\ In (ReadDeployments (inr Sample.deployments))
        (fst (updatePrices Sample.runtime (Sample.world 10 1)))
  /\ networkKey (network (config Sample.runtime (Sample.world 10 1))) = "monadTestnet"
  /\ match Sample.deployments !! "monadTestnet" ≫= (.!! "SwitchBoardTest") with
     | Some deployment =>
         In (ConsoleLog ("✅ Price Consumer Contract: " +:+ address deployment))
            (fst (updatePrices Sample.runtime (Sample.world 10 1)))
     | None =>
         snd (updatePrices Sample.runtime (Sample.world 10 1))
         = inl (newError Sample.runtime
                  "❌ No deployment found for monadTestnet. Please deploy the contract first.")
     end.
Proof.
  assert (H : In (ReadDeployments (inr Sample.deployments))
                 (fst (updatePrices Sample.runtime (Sample.world 10 1))))
    by (vm_compute; repeat first [left; reflexivity | right]).
  split; [reflexivity|]. split; [exact H|].
  exact (deployment_lookup_key_fixed _ _ _ H).
Defined.

(** C7: when the deployments file does not exist the workflow ends in an
    error and no request has left the machine: no balance query, no
    gateway query, no fee query, no transaction. *)
Theorem missing_deployments_no_network_call :
  forall (rt : Runtime) (w : World),
    fs_existsSync w = false ->
    is_error (snd (updatePrices rt w)) = true
    /\ List.filter is_network_call (fst (updatePrices rt w)) = []
    /\ snd (main rt w) = 1.
Proof.
  intros rt w Hfile. unfold main.
  destruct (updatePrices rt w) as [t r] eqn:Hrun.
  unfold updatePrices, loadDeployments, ethers_Network, NETWORKS_read in Hrun.
  rewrite Hfile in Hrun.
  run_in Hrun; end_run Hrun; repeat split.
Qed.


Lemma missing_deployments_no_network_call_witness :
  fs_existsSync Sample.world_without_file = false
  /\ is_error (snd (updatePrices Sample.runtime Sample.world_without_file)) = true
  /\ List.filter is_network_call
       (fst (updatePrices Sample.runtime Sample.world_without_file)) = []
  /\ snd (main Sample.runtime Sample.world_without_file) = 1.
Proof.
  split; [reflexivity|].
  apply (missing_deployments_no_network_call Sample.runtime Sample.world_without_file).
  reflexivity.
Defined.

(** C6: when the gateway's answer lacks the encoded payload, or lacks a
    first median response, [fetchFeedData] throws the error wrapped as
    ["Failed to fetch feed data: ..."] that names what is missing, and
    the gateway was asked once. *)
Theorem fetchFeedData_missing_field :
  forall (rt : Runtime) (w : World) (feedHash : string)
         (feedHashes : list string) (cluster : string) (q : OracleQuote.t),
    In (FetchOracleQuote feedHashes cluster (inr q))
       (fst (fetchFeedData rt w feedHash)) ->
    lacks_encoded q = true \/ lacks_median q = true ->
    snd (fetchFeedData rt w feedHash)
    = inl (newError rt
             ("Failed to fetch feed data: "
              +:+ (if lacks_encoded q then "No encoded data in response"
                   else "No median response in data")))
    /\ List.length (List.filter is_gateway_call (fst (fetchFeedData rt w feedHash)))
       = 1%nat.
Proof.
  intros rt w feedHash feedHashes cluster q Hin Hlacks.
  destruct (fetchFeedData rt w feedHash) as [t r] eqn:Hrun.
  unfold fetchFeedData in Hrun.
  assert (Hq : In (FetchOracleQuote feedHashes cluster (inr q))
                 (List.filter is_gateway_call t))
    by (apply in_filter; [exact Hin | reflexivity]).
  clear Hin. unfold lacks_encoded, lacks_median in *.
  run_in Hrun; end_run Hrun; read_trace;
    destruct Hq as [[= <- <- Hq]|[]]; try discriminate Hq; subst;
    cbn [OracleQuote.encoded OracleQuote.medianResponses] in *.
  all: repeat match goal with
         | H : ?x = _ |- context [?x] => rewrite H
         | H : ?x = _, H' : context [?x] |- _ => rewrite H in H'
         end.
  all: try (split; reflexivity).
  all: exfalso; destruct (OracleQuote.medianResponses q) as [[|? ?]|];
    destruct Hlacks; discriminate.
Qed.


(** Finding an event in the trace of a run that has been computed. *)
Ltac find_event := repeat first [left; reflexivity | right].

Lemma fetchFeedData_missing_field_witness :
  In (FetchOracleQuote [Js.slice_from 2 BTC_USD] "mainnet"
        (inr Sample.quote_without_median))
     (fst (fetchFeedData Sample.runtime
             (Sample.world_with_quote Sample.quote_without_median) BTC_USD))
  /\ (lacks_encoded Sample.quote_without_median = true
      \/ lacks_median Sample.quote_without_median = true)
  /\ snd (fetchFeedData Sample.runtime
            (Sample.world_with_quote Sample.quote_without_median) BTC_USD)
     = inl (newError Sample.runtime
              "Failed to fetch feed data: No median response in data")
  /\ List.length
       (List.filter is_gateway_call
          (fst (fetchFeedData Sample.runtime
                  (Sample.world_with_quote Sample.quote_without_median) BTC_USD)))
     = 1%nat.
Proof.
  assert (H1 : In (FetchOracleQuote [Js.slice_from 2 BTC_USD] "mainnet"
                     (inr Sample.quote_without_median))
                  (fst (fetchFeedData Sample.runtime
                          (Sample.world_with_quote Sample.quote_without_median)
                          BTC_USD)))
    by (vm_compute; find_event).
  assert (H2 : lacks_encoded Sample.quote_without_median = true
               \/ lacks_median Sample.quote_without_median = true)
    by (right; reflexivity).
  split; [exact H1|]. split; [exact H2|].
  exact (fetchFeedData_missing_field _ _ _ _ _ _ H1 H2).
Defined.

(** The gateway is asked at most once in a whole run, whatever it answers. *)
Lemma gateway_asked_at_most_once (rt : Runtime) (w : World) :
  (List.length (List.filter is_gateway_call (fst (updatePrices rt w))) <= 1)%nat.
Proof.
  destruct (updatePrices rt w) as [t r] eqn:Hrun.
  unfold updatePrices, fetchFeedData, loadDeployments, ethers_Network,
    NETWORKS_read in Hrun.
  run_in Hrun; end_run Hrun; read_trace; lia.
Qed.

(** C5: when the balance the run obtained for the signer is below the
    fee the gateway contract quoted, the workflow throws the shortfall
    error, whose message shows the fee and the balance, and no update
    transaction has been submitted; the process exits with 1. *)
Theorem insufficient_balance_fails_before_submission :
  forall (rt : Runtime) (w : World) (account contract : string)
         (updates : list string) (balance fee : Z),
    In (GetBalance account (inr balance)) (fst (updatePrices rt w)) ->
    In (GetFee contract updates (inr fee)) (fst (updatePrices rt w)) ->
    balance < fee ->
    snd (updatePrices rt w)
    = inl (newError rt
             ("❌ Insufficient balance. Need " +:+ formatEther rt fee
              +:+ " ETH, have " +:+ formatEther rt balance +:+ " ETH"))
    /\ List.filter is_submission (fst (updatePrices rt w)) = []
    /\ snd (main rt w) = 1.
Proof.
  intros rt w account contract updates balance fee Hbal Hfee Hlt.
  unfold main.
  destruct (updatePrices rt w) as [t r] eqn:Hrun.
  unfold updatePrices, fetchFeedData, loadDeployments, ethers_Network,
    NETWORKS_read in Hrun.
  apply (in_filter (fun e => match e with GetBalance _ _ => true | _ => false end))
    in Hbal; [|reflexivity].
  apply (in_filter (fun e => match e with GetFee _ _ _ => true | _ => false end))
    in Hfee; [|reflexivity].
  run_in Hrun; end_run Hrun; read_trace; destruct_or?; simplify_eq.
  all: try (repeat split; reflexivity).
  all: exfalso;
    match goal with H : (_ <? _) = false |- _ => apply Z.ltb_ge in H; lia end.
Qed.

Lemma insufficient_balance_fails_before_submission_witness :
  In (GetBalance "0x1111111111111111111111111111111111111111" (inr 1))
     (fst (updatePrices Sample.runtime (Sample.world 1 10)))
  /\ In (GetFee "0xB7F03eee7B9F56347e32cC71DaD65B303D5a0E67" ["0xfeed"] (inr 10))
       (fst (updatePrices Sample.runtime (Sample.world 1 10)))
  /\ 1 < 10
  /\ snd (updatePrices Sample.runtime (Sample.world 1 10))
     = inl (newError Sample.runtime
              "❌ Insufficient balance. Need 0.00000000000000001 ETH, have 0.000000000000000001 ETH")
  /\ List.filter is_submission
       (fst (updatePrices Sample.runtime (Sample.world 1 10))) = []
  /\ snd (main Sample.runtime (Sample.world 1 10)) = 1.
Proof.
  assert (H1 : In (GetBalance "0x1111111111111111111111111111111111111111" (inr 1))
                  (fst (updatePrices Sample.runtime (Sample.world 1 10))))
    by (vm_compute; find_event).
  assert (H2 : In (GetFee "0xB7F03eee7B9F56347e32cC71DaD65B303D5a0E67" ["0xfeed"]
                     (inr 10))
                  (fst (updatePrices Sample.runtime (Sample.world 1 10))))
    by (vm_compute; find_event).
  assert (H3 : 1 < 10) by reflexivity.
  split; [exact H1|]. split; [exact H2|]. split; [exact H3|].
  exact (insufficient_balance_fails_before_submission _ _ _ _ _ _ _ H1 H2 H3).
Defined.

(** C8: the exit code is 0 exactly when [updatePrices] ran to its end,
    and then every request it made was answered and all ten requests to
    the network were made; it is 1 when [updatePrices] threw, which it
    does when the configuration is rejected and whenever a request
    fails: no signing key, an unknown network, no deployments file, no
    deployment record in it, a key the wallet refuses.  On exit 1 the
    error's message, and its stack when it has one, went to the error
    stream.  A reverted transaction reaches the
    script as a rejection of [tx.wait()], one of the failing requests. *)
Theorem main_exit_code :
  forall (rt : Runtime) (w : World),
    (snd (main rt w) = 0 <-> snd (updatePrices rt w) = inr tt)
    /\ (snd (main rt w) = 1 <-> is_error (snd (updatePrices rt w)) = true)
    /\ (snd (main rt w) = 0 ->
        List.existsb is_failed_call (fst (main rt w)) = false
        /\ List.length (List.filter is_network_call (fst (main rt w))) = 10%nat
        /\ stderr (fst (main rt w)) = [])
    /\ (List.existsb is_failed_call (fst (updatePrices rt w)) = true ->
        snd (main rt w) = 1)
    /\ (Js.truthy (privateKey (config rt w)) = false
        \/ NETWORKS !! network (config rt w) = None
        \/ fs_existsSync w = false
        \/ (exists g, fs_readDeployments w = inr g
                      /\ g !! "monadTestnet" ≫= (.!! "SwitchBoardTest") = None)
        \/ is_error (walletAddress rt (privateKey (config rt w))) = true ->
        snd (main rt w) = 1)
    /\ (forall error : JsError,
          snd (updatePrices rt w) = inl error ->
          In (nl +:+ message error +:+ nl) (stderr (fst (main rt w)))
          /\ (forall st : string,
                stack error = Some st -> Js.truthy st = true ->
                In st (stderr (fst (main rt w))))).
Proof.
  intros rt w. unfold main.
  destruct (updatePrices rt w) as [t r] eqn:Hrun.
  split; [|split; [|split; [|split; [|split]]]].
  - destruct r as [e|[]]; cbn; split; intros H; first [discriminate H | reflexivity].
  - destruct r as [e|[]]; cbn; split; intros H; first [discriminate H | reflexivity].
  - destruct r as [e|[]]; cbn [fst snd]; [discriminate|]. intros _.
    unfold updatePrices, fetchFeedData, loadDeployments, ethers_Network,
    NETWORKS_read in Hrun.
    run_in Hrun; end_run Hrun; read_trace; repeat split.
  - destruct r as [e|[]]; cbn [fst snd]; [reflexivity|]. intros Hfailed.
    exfalso.
    unfold updatePrices, fetchFeedData, loadDeployments, ethers_Network,
    NETWORKS_read in Hrun.
    run_in Hrun; end_run Hrun; read_trace; discriminate.
  - destruct r as [e|[]]; cbn [fst snd]; [reflexivity|]. intros Hbad.
    exfalso.
    unfold updatePrices, fetchFeedData, loadDeployments, ethers_Network,
    NETWORKS_read in Hrun.
    rewrite networkKey_constant in Hrun.
    run_in Hrun; end_run Hrun;
      destruct Hbad as [?|[?|[?|[(g' & ? & ?)|Hkey]]]]; simplify_eq.
    all: match goal with
         | H : walletAddress _ _ = _ |- _ => rewrite H in Hkey
         end; discriminate Hkey.
  - intros error Herror. cbn [fst snd] in Herror. subst r.
    cbn [fst snd]. rewrite !stderr_app. split.
    + apply in_or_app. right. apply in_or_app. left.
      cbn. right. right. right. left. reflexivity.
    + intros st -> ->. apply in_or_app. right. apply in_or_app. right.
      cbn. right. left. reflexivity.
Qed.

(** The sample runs: one that succeeds, one short of the fee, one without
    the deployments file. *)
Example main_exit_code_sample :
  snd (main Sample.runtime (Sample.world 10 1)) = 0
  /\ snd (main Sample.runtime (Sample.world 1 10)) = 1
  /\ snd (main Sample.runtime Sample.world_without_file) = 1
  /\ stderr (fst (main Sample.runtime Sample.world_without_file))
     = [ "❌ deployments.json not found. Please deploy the contract first.";
         nl +:+ rule "=";
         "❌ ERROR: Operation Failed";
         rule "=";
         nl +:+ "deployments.json not found. Please deploy the contract first." +:+ nl;
         "Stack trace:";
         "Error: deployments.json not found. Please deploy the contract first." ].
Proof. repeat split; vm_compute; reflexivity. Qed.

(** C9: the two thresholds of the environment are parsed into the
    configuration and never read again: two runs whose environments
    differ in [MAX_PRICE_AGE] and [MAX_DEVIATION_BPS] only have the same
    trace (the same console lines, gateway request, ledger calls and
    transaction, with the same answers) and the same exit code. *)
Theorem thresholds_have_no_effect :
  forall (rt : Runtime) (w : World) (age deviation : option string),
    main rt (with_thresholds w age deviation) = main rt w
    /\ maxPriceAge (config rt (with_thresholds w age deviation))
       = parseInt rt (or_default age "300")
    /\ maxDeviationBps (config rt (with_thresholds w age deviation))
       = parseInt rt (or_default deviation "1000").
Proof.
  intros rt w age deviation. repeat split.
Qed.

(** * Further properties *)

(** ** Fixed-point formatting *)

Lemma toString_no_point (z : Z) : Text.contains "." (Js.toString z) = false.
Proof.
  destruct z as [|p|p]; [reflexivity | |].
  - apply digits_no_point. apply digits_N_toString.
  - cbn [Js.toString Text.contains].
    destruct (digits_no_point _ (digits_N_toString (Npos p))) as (-> & _).
    reflexivity.
Qed.

Lemma contains_append (c : ascii) (a b : string) :
  Text.contains c (a +:+ b) = Text.contains c a || Text.contains c b.
Proof.
  induction a as [|x a IH]; [reflexivity|].
  rewrite append_cons. cbn [Text.contains]. now rewrite IH, orb_assoc.
Qed.

Lemma contains_repeat (c x : ascii) (n : nat) :
  Ascii.eqb x c = false -> Text.contains c (Js.repeat x n) = false.
Proof.
  intros H. induction n as [|n IH]; [reflexivity|].
  cbn [Js.repeat Text.contains]. now rewrite H, IH.
Qed.

Lemma fraction_part_after (a b : string) :
  Text.contains "." a = false -> Text.fraction_part (a +:+ "." +:+ b) = Some b.
Proof.
  induction a as [|x a IH]; intros H; [reflexivity|].
  cbn [Text.contains] in H. apply orb_false_elim in H as [Hx Ha].
  rewrite append_cons. cbn [Text.fraction_part]. rewrite Hx. now apply IH.
Qed.

(** X1: a value that is a whole multiple of the scale is written as the
    integer alone, whatever its sign; at scale 0 every value is. *)
Theorem formatValue_multiple :
  forall (k : Z) (decimals : nat),
    formatValue (k * 10 ^ Z.of_nat decimals) decimals = Js.toString k
    /\ formatValue k 0 = Js.toString k.
Proof.
  intros k decimals. pose proof (divisor_pos decimals) as Hd.
  unfold formatValue. cbv zeta. split.
  - rewrite Z.rem_mul, Z.quot_mul by lia. reflexivity.
  - change (10 ^ Z.of_nat 0) with 1. rewrite Z.rem_1_r, Z.quot_1_r. reflexivity.
Qed.

(** X2: for a non-negative value the string reads as the value: the
    digits before the point are the quotient by the scale; there is no
    point exactly when the remainder is 0; and the digits after it, at
    most [decimals] of them, are the remainder once padded with zeros on
    the right. *)
Theorem formatValue_denotes :
  forall (value : Z) (decimals : nat),
    0 <= value ->
    Text.all Text.is_digit (Text.whole_part (formatValue value decimals)) = true
    /\ Z.of_N (Text.number (Text.whole_part (formatValue value decimals)))
       = Z.quot value (10 ^ Z.of_nat decimals)
    /\ match Text.fraction_part (formatValue value decimals) with
       | None => Z.rem value (10 ^ Z.of_nat decimals) = 0
       | Some f =>
           Z.rem value (10 ^ Z.of_nat decimals) <> 0
           /\ Text.all Text.is_digit f = true
           /\ (String.length f <= decimals)%nat
           /\ Z.of_N (Text.number f) * 10 ^ Z.of_nat (decimals - String.length f)
              = Z.rem value (10 ^ Z.of_nat decimals)
       end.
Proof.
  intros value decimals Hv.
  pose proof (whole_digits value decimals Hv) as Hw.
  pose proof (whole_nonneg value decimals Hv) as Hq.
  pose proof (fraction_range value decimals Hv) as Hr.
  pose proof (padded_number value decimals Hv) as Hnum.
  assert (Hwn : Z.of_N (Text.number (Js.toString (Z.quot value (10 ^ Z.of_nat decimals))))
                = Z.quot value (10 ^ Z.of_nat decimals)).
  { rewrite toString_nonneg by exact Hq. rewrite number_N_toString. lia. }
  rewrite formatValue_eq.
  destruct (Z.eqb_spec (Z.rem value (10 ^ Z.of_nat decimals)) 0) as [E|E].
  - destruct (digits_no_point _ Hw) as (_ & -> & ->). auto.
  - set (t := Js.trimEndZeros _).
    destruct (digits_then_point _ t Hw) as (_ & -> & ->).
    pose proof (length_trimEndZeros
                  (Js.padStart decimals "0"
                     (Js.toString (Z.rem value (10 ^ Z.of_nat decimals))))) as Hlen.
    rewrite (padded_length value decimals Hv E) in Hlen. fold t in Hlen.
    rewrite trimEndZeros_number, (padded_length value decimals Hv E) in Hnum.
    fold t in Hnum.
    split; [exact Hw|]. split; [exact Hwn|]. split; [exact E|].
    split; [apply all_trimEndZeros, padded_digits; exact Hv|].
    split; [exact Hlen|].
    apply (f_equal Z.of_N) in Hnum.
    rewrite N2Z.inj_mul, N2Z.inj_pow, nat_N_Z, Z2N.id in Hnum by lia.
    exact Hnum.
Qed.

Lemma formatValue_denotes_witness :
  0 <= 1500000000000000000
  /\ Text.all Text.is_digit (Text.whole_part (formatValue 1500000000000000000 18)) = true
  /\ Z.of_N (Text.number (Text.whole_part (formatValue 1500000000000000000 18)))
     = Z.quot 1500000000000000000 (10 ^ Z.of_nat 18)
  /\ match Text.fraction_part (formatValue 1500000000000000000 18) with
     | None => Z.rem 1500000000000000000 (10 ^ Z.of_nat 18) = 0
     | Some f =>
         Z.rem 1500000000000000000 (10 ^ Z.of_nat 18) <> 0
         /\ Text.all Text.is_digit f = true
         /\ (String.length f <= 18)%nat
         /\ Z.of_N (Text.number f) * 10 ^ Z.of_nat (18 - String.length f)
            = Z.rem 1500000000000000000 (10 ^ Z.of_nat 18)
     end.
Proof.
  assert (H : 0 <= 1500000000000000000) by lia.
  split; [exact H|]. exact (formatValue_denotes 1500000000000000000 18 H).
Defined.

(** X3: two different non-negative values are never written alike. *)
Theorem formatValue_injective_nonneg :
  forall (a b : Z) (decimals : nat),
    0 <= a -> 0 <= b -> a <> b ->
    formatValue a decimals <> formatValue b decimals.
Proof.
  intros a b decimals Ha Hb Hne Heq.
  pose proof (formatValue_parseValue_nonneg a decimals Ha) as Pa.
  pose proof (formatValue_parseValue_nonneg b decimals Hb) as Pb.
  rewrite Heq, Pb in Pa. injection Pa as Pa. now apply Hne.
Qed.

Lemma formatValue_injective_nonneg_witness :
  0 <= 500000000000000000 /\ 0 <= 50000000000000000
  /\ 500000000000000000 <> 50000000000000000
  /\ formatValue 500000000000000000 18 <> formatValue 50000000000000000 18.
Proof.
  assert (H1 : 0 <= 500000000000000000) by lia.
  assert (H2 : 0 <= 50000000000000000) by lia.
  assert (H3 : 500000000000000000 <> 50000000000000000) by lia.
  split; [exact H1|]. split; [exact H2|]. split; [exact H3|].
  exact (formatValue_injective_nonneg _ _ 18%nat H1 H2 H3).
Defined.

(** X4: for a negative value that is no multiple of the scale, the text
    after the point carries a minus sign of its own, so the string is no
    decimal numeral. *)
Theorem formatValue_negative_fraction_signed :
  forall (value : Z) (decimals : nat),
    value < 0 ->
    Z.rem value (10 ^ Z.of_nat decimals) <> 0 ->
    match Text.fraction_part (formatValue value decimals) with
    | Some f => Text.contains "-" f
    | None => false
    end = true.
Proof.
  intros value decimals Hv Hr.
  pose proof (divisor_pos decimals) as Hd.
  assert (Hb : Z.sgn (Z.rem value (10 ^ Z.of_nat decimals)) = Z.sgn value)
    by (apply Z.rem_sign_nz; [lia | exact Hr]).
  rewrite (Z.sgn_neg value Hv) in Hb.
  unfold formatValue. cbv zeta.
  destruct (Z.eqb_spec (Z.rem value (10 ^ Z.of_nat decimals)) 0) as [E|_];
    [contradiction|].
  rewrite fraction_part_after by apply toString_no_point.
  destruct (Z.rem value (10 ^ Z.of_nat decimals)) as [|p|p] eqn:Ef;
    [discriminate Hb | discriminate Hb |].
  set (padded := Js.padStart decimals "0" (Js.toString (Z.neg p))).
  assert (Hp : Text.contains "-" padded = true).
  { unfold padded, Js.padStart. rewrite contains_append.
    cbn [Js.toString Text.contains]. rewrite Ascii.eqb_refl.
    now rewrite orb_true_r. }
  rewrite (trimEndZeros_split padded), contains_append in Hp.
  rewrite (contains_repeat "-" "0") in Hp by reflexivity.
  now rewrite orb_false_r in Hp.
Qed.

Lemma formatValue_negative_fraction_signed_witness :
  -1500000000000000005 < 0
  /\ Z.rem (-1500000000000000005) (10 ^ Z.of_nat 18) <> 0
  /\ match Text.fraction_part (formatValue (-1500000000000000005) 18) with
     | Some f => Text.contains "-" f
     | None => false
     end = true.
Proof.
  assert (H1 : -1500000000000000005 < 0) by lia.
  assert (H2 : Z.rem (-1500000000000000005) (10 ^ Z.of_nat 18) <> 0)
    by (vm_compute; discriminate).
  split; [exact H1|]. split; [exact H2|].
  exact (formatValue_negative_fraction_signed _ _ H1 H2).
Defined.

(** ** The workflow, step by step *)

Ltac read_steps :=
  cbn [app In List.filter List.existsb List.forallb List.length flat_map seq
       stderr request_places silent_after_failure
       is_console is_file_read is_fee_query is_price_query
       is_network_call is_gateway_call is_submission is_failed_call is_error
       negb orb andb fst snd] in *.

(** An answer that contradicts what is known of the world. *)
Ltac impossible :=
  try match goal with
      | H : false = true |- _ => discriminate H
      | H : true = false |- _ => discriminate H
      | H : ?x = _, H' : ?x = _ |- _ => rewrite H in H'; discriminate H'
      end.

Lemma or_default_truthy (x : option string) (d : string) :
  Js.truthy d = true -> Js.truthy (or_default x d) = true.
Proof.
  intros Hd. unfold or_default. destruct x as [s|]; [|exact Hd].
  destruct (Js.truthy s) eqn:E; [exact E | exact Hd].
Qed.

Lemma rpcUrl_never_empty (rt : Runtime) (w : World) :
  Js.truthy (rpcUrl (config rt w)) = true.
Proof. apply or_default_truthy. reflexivity. Qed.

(** Opening a run of [updatePrices] for symbolic execution. *)
Ltac open_run rt w t r Hrun :=
  destruct (updatePrices rt w) as [t r] eqn:Hrun;
  cbn [fst snd] in *;
  unfold updatePrices, fetchFeedData, loadDeployments, ethers_Network,
    NETWORKS_read in Hrun;
  rewrite ?networkKey_constant, ?(rpcUrl_never_empty rt w) in Hrun.

(** X5: the endpoint, the network selector and the feed identifier of
    the configuration are never empty, an empty variable giving the
    default as an unset one does; so the test for a missing RPC_URL
    never fires and every run prints the endpoint. *)
Theorem configuration_defaults :
  forall (rt : Runtime) (w : World),
    Js.truthy (rpcUrl (config rt w)) = true
    /\ Js.truthy (network (config rt w)) = true
    /\ Js.truthy (feedHash (config rt w)) = true
    /\ In (ConsoleLog ("✅ RPC URL: " +:+ rpcUrl (config rt w)))
         (fst (updatePrices rt w)).
Proof.
  intros rt w.
  split; [apply rpcUrl_never_empty|].
  split; [apply or_default_truthy; reflexivity|].
  split; [apply or_default_truthy; reflexivity|].
  open_run rt w t r Hrun.
  run_in Hrun; end_run Hrun; impossible; read_steps; find_event.
Qed.

(** X6: without a signing key the run ends at once with the error that
    asks for PRIVATE_KEY: no file is looked for and nothing is requested. *)
Theorem missing_private_key :
  forall (rt : Runtime) (w : World),
    Js.truthy (privateKey (config rt w)) = false ->
    snd (updatePrices rt w)
    = inl (newError rt "❌ PRIVATE_KEY environment variable is required")
    /\ request_places (fst (updatePrices rt w)) = []
    /\ stderr (fst (updatePrices rt w)) = []
    /\ snd (main rt w) = 1.
Proof.
  intros rt w Hkey. unfold main.
  open_run rt w t r Hrun. rewrite Hkey in Hrun.
  run_in Hrun; end_run Hrun; impossible; read_steps; repeat split.
Qed.

Lemma missing_private_key_witness :
  Js.truthy (privateKey (config Sample.runtime Scenario.no_key)) = false
  /\ snd (updatePrices Sample.runtime Scenario.no_key)
     = inl (newError Sample.runtime "❌ PRIVATE_KEY environment variable is required")
  /\ request_places (fst (updatePrices Sample.runtime Scenario.no_key)) = []
  /\ stderr (fst (updatePrices Sample.runtime Scenario.no_key)) = []
  /\ snd (main Sample.runtime Scenario.no_key) = 1.
Proof.
  split; [reflexivity|].
  apply (missing_private_key Sample.runtime Scenario.no_key). reflexivity.
Defined.

Lemma NETWORKS_read_None (key : string) :
  NETWORKS_read key = None ->
  NETWORKS !! key = None /\ inherited key Object_prototype = None.
Proof.
  unfold NETWORKS_read. destruct (NETWORKS !! key); [discriminate|].
  destruct (inherited key Object_prototype); [discriminate|]. now split.
Qed.

(** X7: a network selector at which [NETWORKS] has nothing, neither an
    entry of its own nor an inherited property, ends the run with the
    error that names it, before any file access or request. *)
Theorem unknown_network :
  forall (rt : Runtime) (w : World),
    Js.truthy (privateKey (config rt w)) = true ->
    NETWORKS_read (network (config rt w)) = None ->
    snd (updatePrices rt w)
    = inl (newError rt ("❌ Unknown network: " +:+ network (config rt w)))
    /\ request_places (fst (updatePrices rt w)) = []
    /\ snd (main rt w) = 1.
Proof.
  intros rt w Hkey Hnet. apply NETWORKS_read_None in Hnet as [Hown Hinherited].
  unfold main.
  open_run rt w t r Hrun. rewrite Hkey, Hown, Hinherited in Hrun.
  run_in Hrun; end_run Hrun; impossible; read_steps; repeat split.
Qed.

Lemma unknown_network_witness :
  Js.truthy (privateKey (config Sample.runtime Scenario.hardhat)) = true
  /\ NETWORKS_read (network (config Sample.runtime Scenario.hardhat)) = None
  /\ snd (updatePrices Sample.runtime Scenario.hardhat)
     = inl (newError Sample.runtime "❌ Unknown network: hardhat")
  /\ request_places (fst (updatePrices Sample.runtime Scenario.hardhat)) = []
  /\ snd (main Sample.runtime Scenario.hardhat) = 1.
Proof.
  split; [reflexivity|]. split; [vm_compute; reflexivity|].
  apply (unknown_network Sample.runtime Scenario.hardhat);
    [reflexivity | vm_compute; reflexivity].
Defined.

(** X22: a network selector that names a property every object inherits
    (['constructor'], ['toString'], ...) passes the test for an unknown
    network: the run prints the inherited value's name with an undefined
    chain id, goes on to the deployments file, and ends in an error
    without a request to the network; when the file holds the record,
    the error is the one of the [ethers.Network] constructor. *)
Theorem inherited_network_name :
  forall (rt : Runtime) (w : World) (name : option string),
    Js.truthy (privateKey (config rt w)) = true ->
    NETWORKS !! network (config rt w) = None ->
    inherited (network (config rt w)) Object_prototype = Some name ->
    In (ConsoleLog ("✅ Network: " +:+ show_optional name
                    +:+ " (Chain ID: undefined)"))
       (fst (updatePrices rt w))
    /\ hd_error (request_places (fst (updatePrices rt w))) = Some 0%nat
    /\ List.filter is_network_call (fst (updatePrices rt w)) = []
    /\ snd (main rt w) = 1
    /\ (List.existsb is_failed_call (fst (updatePrices rt w)) = false ->
        (exists deployments : gmap string (gmap string Deployment),
           fs_readDeployments w = inr deployments
           /\ is_Some (deployments !! "monadTestnet" ≫= (.!! "SwitchBoardTest"))) ->
        snd (updatePrices rt w) = inl (invalidChainId rt)).
Proof.
  intros rt w name Hkey Hown Hinherited. unfold main.
  open_run rt w t r Hrun. rewrite Hkey, Hown, Hinherited in Hrun.
  run_in Hrun; end_run Hrun; impossible; read_steps.
  all: split; [find_event|]; split; [reflexivity|]; split; [reflexivity|];
    split; [reflexivity|].
  all: intros Hfailed (deployments & Hread & Hrecord); try discriminate Hfailed;
    simplify_eq; try reflexivity.
  all: match goal with
       | H : _ ≫= _ = None |- _ => rewrite H in Hrecord; now destruct Hrecord
       end.
Qed.

Lemma inherited_network_name_witness :
  Js.truthy (privateKey (config Sample.runtime Scenario.inherited_name)) = true
  /\ NETWORKS !! network (config Sample.runtime Scenario.inherited_name) = None
  /\ inherited (network (config Sample.runtime Scenario.inherited_name))
       Object_prototype = Some (Some "Object")
  /\ In (ConsoleLog "✅ Network: Object (Chain ID: undefined)")
       (fst (updatePrices Sample.runtime Scenario.inherited_name))
  /\ hd_error (request_places
                 (fst (updatePrices Sample.runtime Scenario.inherited_name)))
     = Some 0%nat
  /\ List.filter is_network_call
       (fst (updatePrices Sample.runtime Scenario.inherited_name)) = []
  /\ snd (main Sample.runtime Scenario.inherited_name) = 1
  /\ snd (updatePrices Sample.runtime Scenario.inherited_name)
     = inl (invalidChainId Sample.runtime).
Proof.
  assert (H1 : Js.truthy (privateKey (config Sample.runtime Scenario.inherited_name))
               = true) by reflexivity.
  assert (H2 : NETWORKS !! network (config Sample.runtime Scenario.inherited_name)
               = None) by (vm_compute; reflexivity).
  assert (H3 : inherited (network (config Sample.runtime Scenario.inherited_name))
                 Object_prototype = Some (Some "Object")) by reflexivity.
  split; [exact H1|]. split; [exact H2|]. split; [exact H3|].
  pose proof (inherited_network_name _ _ _ H1 H2 H3) as (P1 & P2 & P3 & P4 & _).
  split; [exact P1|]. split; [exact P2|]. split; [exact P3|]. split; [exact P4|].
  reflexivity.
Defined.

(** X8: with a valid configuration and no deployments file, the error
    is the one [loadDeployments] throws; it is written once to the error
    stream behind a cross, and the file is never read. *)
Theorem missing_file_error :
  forall (rt : Runtime) (w : World) (networkConfig : NetworkConfig),
    Js.truthy (privateKey (config rt w)) = true ->
    NETWORKS !! network (config rt w) = Some networkConfig ->
    fs_existsSync w = false ->
    snd (updatePrices rt w)
    = inl (newError rt "deployments.json not found. Please deploy the contract first.")
    /\ stderr (fst (updatePrices rt w))
       = ["❌ deployments.json not found. Please deploy the contract first."]
    /\ request_places (fst (updatePrices rt w)) = [0%nat].
Proof.
  intros rt w networkConfig Hkey Hnet Hfile.
  open_run rt w t r Hrun. rewrite Hkey, Hnet, Hfile in Hrun.
  run_in Hrun; end_run Hrun; impossible; read_steps; repeat split.
Qed.

Lemma missing_file_error_witness :
  Js.truthy (privateKey (config Sample.runtime Scenario.no_file)) = true
  /\ NETWORKS !! network (config Sample.runtime Scenario.no_file)
     = NETWORKS !! "monad-testnet"
  /\ fs_existsSync Scenario.no_file = false
  /\ snd (updatePrices Sample.runtime Scenario.no_file)
     = inl (newError Sample.runtime
              "deployments.json not found. Please deploy the contract first.")
  /\ stderr (fst (updatePrices Sample.runtime Scenario.no_file))
     = ["❌ deployments.json not found. Please deploy the contract first."]
  /\ request_places (fst (updatePrices Sample.runtime Scenario.no_file)) = [0%nat].
Proof.
  split; [reflexivity|]. split; [reflexivity|]. split; [reflexivity|].
  eapply (missing_file_error Sample.runtime Scenario.no_file);
    [reflexivity | vm_compute; reflexivity | reflexivity].
Defined.

(** X9: when the deployments file cannot be read or parsed, the error of
    the read is thrown on unchanged, after one line on the error stream;
    nothing has been requested from the network. *)
Theorem unreadable_file_error :
  forall (rt : Runtime) (w : World) (networkConfig : NetworkConfig)
         (error : JsError),
    Js.truthy (privateKey (config rt w)) = true ->
    NETWORKS !! network (config rt w) = Some networkConfig ->
    fs_existsSync w = true ->
    fs_readDeployments w = inl error ->
    snd (updatePrices rt w) = inl error
    /\ stderr (fst (updatePrices rt w)) = ["❌ " +:+ message error]
    /\ request_places (fst (updatePrices rt w)) = [0%nat; 1%nat].
Proof.
  intros rt w networkConfig error Hkey Hnet Hfile Hread.
  open_run rt w t r Hrun. rewrite Hkey, Hnet, Hfile, Hread in Hrun.
  run_in Hrun; end_run Hrun; impossible; read_steps; repeat split.
Qed.

Lemma unreadable_file_error_witness :
  Js.truthy (privateKey (config Sample.runtime Scenario.bad_json)) = true
  /\ NETWORKS !! network (config Sample.runtime Scenario.bad_json)
     = NETWORKS !! "monad-testnet"
  /\ fs_existsSync Scenario.bad_json = true
  /\ fs_readDeployments Scenario.bad_json
     = inl (Scenario.error "Unexpected end of JSON input")
  /\ snd (updatePrices Sample.runtime Scenario.bad_json)
     = inl (Scenario.error "Unexpected end of JSON input")
  /\ stderr (fst (updatePrices Sample.runtime Scenario.bad_json))
     = ["❌ Unexpected end of JSON input"]
  /\ request_places (fst (updatePrices Sample.runtime Scenario.bad_json))
     = [0%nat; 1%nat].
Proof.
  split; [reflexivity|]. split; [reflexivity|]. split; [reflexivity|].
  split; [reflexivity|].
  eapply (unreadable_file_error Sample.runtime Scenario.bad_json);
    [reflexivity | vm_compute; reflexivity | reflexivity | reflexivity].
Defined.

(** X10: a deployments document, an object, without a [SwitchBoardTest]
    record under [monadTestnet] is refused, whatever the network selector is and
    whatever else the file holds: the error names [monadTestnet] and
    nothing has been requested from the network. *)
Theorem missing_deployment_record :
  forall (rt : Runtime) (w : World) (networkConfig : NetworkConfig)
         (deployments : gmap string (gmap string Deployment)),
    Js.truthy (privateKey (config rt w)) = true ->
    NETWORKS !! network (config rt w) = Some networkConfig ->
    fs_existsSync w = true ->
    fs_readDeployments w = inr deployments ->
    deployments !! "monadTestnet" ≫= (.!! "SwitchBoardTest") = None ->
    snd (updatePrices rt w)
    = inl (newError rt
             "❌ No deployment found for monadTestnet. Please deploy the contract first.")
    /\ List.filter is_network_call (fst (updatePrices rt w)) = []
    /\ stderr (fst (updatePrices rt w)) = [].
Proof.
  intros rt w networkConfig deployments Hkey Hnet Hfile Hread Hrecord.
  open_run rt w t r Hrun. rewrite Hkey, Hnet, Hfile, Hread in Hrun.
  unfold_monad Hrun. cbv delta [negb] in Hrun. cbv beta iota zeta in Hrun.
  rewrite Hrecord in Hrun.
  run_in Hrun; end_run Hrun; impossible; read_steps; repeat split.
Qed.

Lemma missing_deployment_record_witness :
  Js.truthy (privateKey (config Sample.runtime Scenario.mainnet_record_only)) = true
  /\ NETWORKS !! network (config Sample.runtime Scenario.mainnet_record_only)
     = NETWORKS !! "monad-mainnet"
  /\ fs_existsSync Scenario.mainnet_record_only = true
  /\ fs_readDeployments Scenario.mainnet_record_only = inr Scenario.mainnet_only
  /\ Scenario.mainnet_only !! "monadTestnet" ≫= (.!! "SwitchBoardTest") = None
  /\ snd (updatePrices Sample.runtime Scenario.mainnet_record_only)
     = inl (newError Sample.runtime
              "❌ No deployment found for monadTestnet. Please deploy the contract first.")
  /\ List.filter is_network_call
       (fst (updatePrices Sample.runtime Scenario.mainnet_record_only)) = []
  /\ stderr (fst (updatePrices Sample.runtime Scenario.mainnet_record_only)) = [].
Proof.
  split; [reflexivity|]. split; [reflexivity|]. split; [reflexivity|].
  split; [reflexivity|]. split; [vm_compute; reflexivity|].
  eapply (missing_deployment_record Sample.runtime Scenario.mainnet_record_only);
    [reflexivity | vm_compute; reflexivity | reflexivity | reflexivity
    | vm_compute; reflexivity].
Defined.

(** ** The quote fetcher *)

(** Opening a run of [fetchFeedData]. *)
Ltac open_fetch rt w h t r Hrun :=
  destruct (fetchFeedData rt w h) as [t r] eqn:Hrun;
  cbn [fst snd] in *;
  unfold fetchFeedData in Hrun;
  rewrite ?normalizeFeedHash_prefixed in Hrun.

Lemma prefix_then_rest (s : string) :
  Js.startsWith "0x" s = true -> "0x" +:+ Js.slice_from 2 s = s.
Proof.
  intros H. destruct s as [|a s]; [discriminate H|].
  cbn [Js.startsWith] in H.
  destruct (Ascii.eqb_spec "0" a) as [Ha|]; [|discriminate H].
  destruct s as [|b s]; [discriminate H|].
  cbn [Js.startsWith] in H.
  destruct (Ascii.eqb_spec "x" b) as [Hb|]; [|discriminate H].
  now rewrite <- Ha, <- Hb.
Qed.

(** X11: whatever goes wrong in [fetchFeedData] (the gateway rejecting,
    a field missing, a value that cannot be shown), the error it throws
    is a new one whose message is the cause's behind
    ["Failed to fetch feed data: "], and the cause went to the error
    stream in two lines. *)
Theorem fetchFeedData_errors_are_wrapped :
  forall (rt : Runtime) (w : World) (feedHash : string) (error : JsError),
    snd (fetchFeedData rt w feedHash) = inl error ->
    exists cause : string,
      error = newError rt ("Failed to fetch feed data: " +:+ cause)
      /\ stderr (fst (fetchFeedData rt w feedHash))
         = [nl +:+ "❌ Error fetching feed data:"; "   " +:+ cause].
Proof.
  intros rt w feedHash error Herror.
  open_fetch rt w feedHash t r Hrun. subst r.
  run_in Hrun; end_run Hrun; impossible; simplify_eq; read_steps;
    eexists; split; reflexivity.
Qed.

Lemma fetchFeedData_errors_are_wrapped_witness :
  snd (fetchFeedData Sample.runtime Scenario.gateway_down BTC_USD)
  = inl (newError Sample.runtime "Failed to fetch feed data: 503 Service Unavailable")
  /\ exists cause : string,
       newError Sample.runtime "Failed to fetch feed data: 503 Service Unavailable"
       = newError Sample.runtime ("Failed to fetch feed data: " +:+ cause)
       /\ stderr (fst (fetchFeedData Sample.runtime Scenario.gateway_down BTC_USD))
          = [nl +:+ "❌ Error fetching feed data:"; "   " +:+ cause].
Proof.
  assert (H : snd (fetchFeedData Sample.runtime Scenario.gateway_down BTC_USD)
              = inl (newError Sample.runtime
                       "Failed to fetch feed data: 503 Service Unavailable"))
    by reflexivity.
  split; [exact H|].
  exact (fetchFeedData_errors_are_wrapped _ _ _ _ H).
Defined.

(** X12: when [fetchFeedData] returns, what it returns is read off one
    answer of the gateway: the payload is that answer's, and is not
    empty; the value is its first median's; the identifier is the
    normalized one; and nothing went to the error stream. *)
Theorem fetchFeedData_returns_the_quote :
  forall (rt : Runtime) (w : World) (feedHash : string) (feedData : FeedData.t),
    snd (fetchFeedData rt w feedHash) = inr feedData ->
    FeedData.feedHash feedData = normalizeFeedHash feedHash
    /\ Js.truthy (FeedData.encoded feedData) = true
    /\ stderr (fst (fetchFeedData rt w feedHash)) = []
    /\ exists (feedHashes : list string) (q : OracleQuote.t) (m : MedianResponse.t),
         In (FetchOracleQuote feedHashes "mainnet" (inr q))
            (fst (fetchFeedData rt w feedHash))
         /\ OracleQuote.encoded q = Some (FeedData.encoded feedData)
         /\ OracleQuote.medianResponses q ≫= head = Some m
         /\ FeedData.value feedData = MedianResponse.value m
         /\ FeedData.timestamp feedData = OracleQuote.timestamp q
         /\ FeedData.slot feedData = OracleQuote.slot q
         /\ FeedData.numOracles feedData
            = Z.of_nat (length (OracleQuote.oracleResponses q)).
Proof.
  intros rt w feedHash feedData Hdata.
  open_fetch rt w feedHash t r Hrun. subst r.
  run_in Hrun; end_run Hrun; impossible; simplify_eq; read_steps.
  cbn [FeedData.feedHash FeedData.encoded FeedData.value FeedData.timestamp
       FeedData.slot FeedData.numOracles].
  split; [reflexivity|]. split; [assumption|]. split; [reflexivity|].
  eexists _, _, _. split; [find_event|].
  repeat split; first [eassumption | reflexivity].
Qed.

Lemma fetchFeedData_returns_the_quote_witness :
  snd (fetchFeedData Sample.runtime (Sample.world 10 1) BTC_USD)
  = inr Scenario.feed_data
  /\ FeedData.feedHash Scenario.feed_data = normalizeFeedHash BTC_USD
  /\ Js.truthy (FeedData.encoded Scenario.feed_data) = true
  /\ stderr (fst (fetchFeedData Sample.runtime (Sample.world 10 1) BTC_USD)) = []
  /\ exists (feedHashes : list string) (q : OracleQuote.t) (m : MedianResponse.t),
       In (FetchOracleQuote feedHashes "mainnet" (inr q))
          (fst (fetchFeedData Sample.runtime (Sample.world 10 1) BTC_USD))
       /\ OracleQuote.encoded q = Some (FeedData.encoded Scenario.feed_data)
       /\ OracleQuote.medianResponses q ≫= head = Some m
       /\ FeedData.value Scenario.feed_data = MedianResponse.value m
       /\ FeedData.timestamp Scenario.feed_data = OracleQuote.timestamp q
       /\ FeedData.slot Scenario.feed_data = OracleQuote.slot q
       /\ FeedData.numOracles Scenario.feed_data
          = Z.of_nat (length (OracleQuote.oracleResponses q)).
Proof.
  assert (H : snd (fetchFeedData Sample.runtime (Sample.world 10 1) BTC_USD)
              = inr Scenario.feed_data)
    by reflexivity.
  split; [exact H|].
  exact (fetchFeedData_returns_the_quote _ _ _ _ H).
Defined.

(** X13: the gateway is asked on the ["mainnet"] cluster for one
    identifier, the normalized one without its leading ["0x"]. *)
Theorem gateway_request_shape :
  forall (rt : Runtime) (w : World) (feedHash : string)
         (feedHashes : list string) (cluster : string) (r : result OracleQuote.t),
    In (FetchOracleQuote feedHashes cluster r) (fst (fetchFeedData rt w feedHash)) ->
    cluster = "mainnet"
    /\ exists h : string,
         feedHashes = [h] /\ "0x" +:+ h = normalizeFeedHash feedHash.
Proof.
  intros rt w feedHash feedHashes cluster r0 Hin.
  open_fetch rt w feedHash t r Hrun.
  apply (in_filter is_gateway_call) in Hin; [|reflexivity].
  run_in Hrun; end_run Hrun; impossible; read_steps; destruct_or?;
    simplify_eq; try contradiction.
  all: split; [reflexivity|]; eexists; split; [reflexivity|];
    apply prefix_then_rest, normalizeFeedHash_prefixed.
Qed.

Lemma gateway_request_shape_witness :
  In (FetchOracleQuote [Js.slice_from 2 BTC_USD] "mainnet" (inr Sample.quote))
     (fst (fetchFeedData Sample.runtime (Sample.world 10 1) (Js.slice_from 2 BTC_USD)))
  /\ "mainnet" = "mainnet"
  /\ exists h : string,
       [Js.slice_from 2 BTC_USD] = [h]
       /\ "0x" +:+ h = normalizeFeedHash (Js.slice_from 2 BTC_USD).
Proof.
  assert (H : In (FetchOracleQuote [Js.slice_from 2 BTC_USD] "mainnet"
                    (inr Sample.quote))
                 (fst (fetchFeedData Sample.runtime (Sample.world 10 1)
                         (Js.slice_from 2 BTC_USD))))
    by (vm_compute; find_event).
  split; [exact H|].
  exact (gateway_request_shape _ _ _ _ _ _ H).
Defined.

(** ** What is submitted *)

(** X14: whenever a transaction is submitted, it carries one update and
    one feed identifier: the update is the payload of the gateway's
    answer, the identifier is the configured one, normalized; it pays
    the fee that was quoted for that very payload, and the signer's
    balance covers it. *)
Theorem submission_carries_the_quote :
  forall (rt : Runtime) (w : World) (contract : string)
         (updates feedIds : list string) (payment : Z) (r : result Tx.t),
    In (UpdatePrices contract updates feedIds payment r) (fst (updatePrices rt w)) ->
    feedIds = [normalizeFeedHash (feedHash (config rt w))]
    /\ (exists (feedHashes : list string) (q : OracleQuote.t) (payload : string),
          In (FetchOracleQuote feedHashes "mainnet" (inr q)) (fst (updatePrices rt w))
          /\ OracleQuote.encoded q = Some payload
          /\ updates = [payload])
    /\ (exists gateway : string,
          In (GetFee gateway updates (inr payment)) (fst (updatePrices rt w)))
    /\ (exists (account : string) (balance : Z),
          In (GetBalance account (inr balance)) (fst (updatePrices rt w))
          /\ payment <= balance).
Proof.
  intros rt w contract updates feedIds payment r0 Hin.
  open_run rt w t r Hrun.
  apply (in_filter is_submission) in Hin; [|reflexivity].
  run_in Hrun; end_run Hrun; impossible; read_steps; destruct_or?;
    simplify_eq; try contradiction.
  all: cbn [FeedData.encoded] in *.
  all: split; [reflexivity|].
  all: split; [eexists _, _, _; split; [find_event|]; split;
               [eassumption | reflexivity]|].
  all: split; [eexists; find_event|].
  all: eexists _, _; split; [find_event|].
  all: match goal with H : (_ <? _) = false |- _ => apply Z.ltb_ge in H; exact H end.
Qed.

Lemma submission_carries_the_quote_witness :
  In (UpdatePrices "0x2222222222222222222222222222222222222222" ["0xfeed"]
        [BTC_USD] 1 (inr {| Tx.hash := "0xaaaa" |}))
     (fst (updatePrices Sample.runtime (Sample.world 10 1)))
  /\ [BTC_USD] = [normalizeFeedHash (feedHash (config Sample.runtime (Sample.world 10 1)))]
  /\ (exists (feedHashes : list string) (q : OracleQuote.t) (payload : string),
        In (FetchOracleQuote feedHashes "mainnet" (inr q))
           (fst (updatePrices Sample.runtime (Sample.world 10 1)))
        /\ OracleQuote.encoded q = Some payload
        /\ ["0xfeed"] = [payload])
  /\ (exists gateway : string,
        In (GetFee gateway ["0xfeed"] (inr 1))
           (fst (updatePrices Sample.runtime (Sample.world 10 1))))
  /\ (exists (account : string) (balance : Z),
        In (GetBalance account (inr balance))
           (fst (updatePrices Sample.runtime (Sample.world 10 1)))
        /\ 1 <= balance).
Proof.
  assert (H : In (UpdatePrices "0x2222222222222222222222222222222222222222"
                    ["0xfeed"] [BTC_USD] 1 (inr {| Tx.hash := "0xaaaa" |}))
                 (fst (updatePrices Sample.runtime (Sample.world 10 1))))
    by (vm_compute; find_event).
  split; [exact H|].
  exact (submission_carries_the_quote _ _ _ _ _ _ _ H).
Defined.

(** X15: a transaction goes to the address recorded under
    [monadTestnet] and [SwitchBoardTest] in the deployments file, and pays
    what the gateway contract of the selected network asked; so on
    ['monad-mainnet'] the fee comes from the main network's contract and
    the address from the test network's record. *)
Theorem submission_addresses :
  forall (rt : Runtime) (w : World) (contract : string)
         (updates feedIds : list string) (payment : Z) (r : result Tx.t),
    In (UpdatePrices contract updates feedIds payment r) (fst (updatePrices rt w)) ->
    exists (networkConfig : NetworkConfig)
           (deployments : gmap string (gmap string Deployment))
           (deployment : Deployment),
      NETWORKS !! network (config rt w) = Some networkConfig
      /\ In (GetFee (switchboard networkConfig) updates (inr payment))
            (fst (updatePrices rt w))
      /\ fs_readDeployments w = inr deployments
      /\ deployments !! "monadTestnet" ≫= (.!! "SwitchBoardTest") = Some deployment
      /\ contract = address deployment.
Proof.
  intros rt w contract updates feedIds payment r0 Hin.
  open_run rt w t r Hrun.
  apply (in_filter is_submission) in Hin; [|reflexivity].
  run_in Hrun; end_run Hrun; impossible; read_steps; destruct_or?;
    simplify_eq; try contradiction.
  all: cbn [FeedData.encoded] in *.
  all: eexists _, _, _; split; [first [eassumption | reflexivity]|];
    split; [find_event|]; split; [first [eassumption | reflexivity]|];
    split; [first [eassumption | reflexivity] | reflexivity].
Qed.

Lemma submission_addresses_witness :
  In (UpdatePrices "0x2222222222222222222222222222222222222222" ["0xfeed"]
        [BTC_USD] 1 (inr {| Tx.hash := "0xaaaa" |}))
     (fst (updatePrices Sample.runtime (Sample.world 10 1)))
  /\ exists (networkConfig : NetworkConfig)
            (deployments : gmap string (gmap string Deployment))
            (deployment : Deployment),
       NETWORKS !! network (config Sample.runtime (Sample.world 10 1))
       = Some networkConfig
       /\ In (GetFee (switchboard networkConfig) ["0xfeed"] (inr 1))
             (fst (updatePrices Sample.runtime (Sample.world 10 1)))
       /\ fs_readDeployments (Sample.world 10 1) = inr deployments
       /\ deployments !! "monadTestnet" ≫= (.!! "SwitchBoardTest") = Some deployment
       /\ "0x2222222222222222222222222222222222222222" = address deployment.
Proof.
  assert (H : In (UpdatePrices "0x2222222222222222222222222222222222222222"
                    ["0xfeed"] [BTC_USD] 1 (inr {| Tx.hash := "0xaaaa" |}))
                 (fst (updatePrices Sample.runtime (Sample.world 10 1))))
    by (vm_compute; find_event).
  split; [exact H|].
  exact (submission_addresses _ _ _ _ _ _ _ H).
Defined.

(** X16: when the balance covers the fee, the bound included, the
    transaction is submitted, and it pays the fee. *)
Theorem sufficient_balance_submits :
  forall (rt : Runtime) (w : World) (account gateway : string)
         (updates : list string) (balance fee : Z),
    In (GetBalance account (inr balance)) (fst (updatePrices rt w)) ->
    In (GetFee gateway updates (inr fee)) (fst (updatePrices rt w)) ->
    fee <= balance ->
    exists (contract : string) (feedIds : list string) (r : result Tx.t),
      In (UpdatePrices contract updates feedIds fee r) (fst (updatePrices rt w)).
Proof.
  intros rt w account gateway updates balance fee Hbal Hfee Hle.
  open_run rt w t r Hrun.
  apply (in_filter (fun e => match e with GetBalance _ _ => true | _ => false end))
    in Hbal; [|reflexivity].
  apply (in_filter is_fee_query) in Hfee; [|reflexivity].
  run_in Hrun; end_run Hrun; impossible; read_steps; destruct_or?;
    simplify_eq; try contradiction.
  all: try match goal with
           | H : (_ <? _) = true |- _ => apply Z.ltb_lt in H; lia
           end.
  all: eexists _, _, _; find_event.
Qed.

Lemma sufficient_balance_submits_witness :
  In (GetBalance "0x1111111111111111111111111111111111111111" (inr 5))
     (fst (updatePrices Sample.runtime (Sample.world 5 5)))
  /\ In (GetFee "0xB7F03eee7B9F56347e32cC71DaD65B303D5a0E67" ["0xfeed"] (inr 5))
       (fst (updatePrices Sample.runtime (Sample.world 5 5)))
  /\ 5 <= 5
  /\ exists (contract : string) (feedIds : list string) (r : result Tx.t),
       In (UpdatePrices contract ["0xfeed"] feedIds 5 r)
          (fst (updatePrices Sample.runtime (Sample.world 5 5))).
Proof.
  assert (H1 : In (GetBalance "0x1111111111111111111111111111111111111111" (inr 5))
                  (fst (updatePrices Sample.runtime (Sample.world 5 5))))
    by (vm_compute; find_event).
  assert (H2 : In (GetFee "0xB7F03eee7B9F56347e32cC71DaD65B303D5a0E67" ["0xfeed"]
                     (inr 5))
                  (fst (updatePrices Sample.runtime (Sample.world 5 5))))
    by (vm_compute; find_event).
  assert (H3 : 5 <= 5) by lia.
  split; [exact H1|]. split; [exact H2|]. split; [exact H3|].
  exact (sufficient_balance_submits _ _ _ _ _ _ _ H1 H2 H3).
Defined.

(** ** The order of the steps *)

Lemma request_places_app (t u : list Event) :
  request_places (t ++ u) = (request_places t ++ request_places u)%list.
Proof. unfold request_places. apply flat_map_app. Qed.

Lemma request_places_console (u : list Event) :
  forallb is_console u = true -> request_places u = [].
Proof.
  induction u as [|e u IH]; intros H; [reflexivity|].
  cbn [forallb] in H. apply andb_prop in H as [He Hu].
  destruct e; try discriminate He; cbn; now apply IH.
Qed.

Lemma silent_console (u : list Event) :
  forallb is_console u = true -> silent_after_failure u = true.
Proof.
  induction u as [|e u IH]; intros H; [reflexivity|].
  cbn [forallb] in H. apply andb_prop in H as [He Hu].
  destruct e; try discriminate He; cbn; now apply IH.
Qed.

Lemma silent_app (t u : list Event) :
  silent_after_failure t = true -> forallb is_console u = true ->
  silent_after_failure (t ++ u) = true.
Proof.
  intros Ht Hu. induction t as [|e t IH]; [now apply silent_console|].
  cbn [app silent_after_failure] in *.
  destruct (is_failed_call e).
  - rewrite forallb_app, Ht. exact Hu.
  - now apply IH.
Qed.

Lemma updatePrices_in_order (rt : Runtime) (w : World) :
  request_places (fst (updatePrices rt w))
  = seq 0 (length (request_places (fst (updatePrices rt w))))
  /\ silent_after_failure (fst (updatePrices rt w)) = true.
Proof.
  open_run rt w t r Hrun.
  run_in Hrun; end_run Hrun; impossible; read_steps; split; reflexivity.
Qed.

(** X17: the steps of a run come in one fixed order, each at most once
    and none skipped: the file test, the file read, the balance query,
    the gateway query, the fee query, the submission, the wait and the
    five read-backs.  After the first step that fails nothing more is
    asked of the file system or of the network; only console lines
    follow. *)
Theorem steps_in_order :
  forall (rt : Runtime) (w : World),
    request_places (fst (main rt w))
    = seq 0 (length (request_places (fst (main rt w))))
    /\ silent_after_failure (fst (main rt w)) = true.
Proof.
  intros rt w. destruct (updatePrices_in_order rt w) as [Horder Hsilent].
  unfold main. destruct (updatePrices rt w) as [t [e|[]]]; cbn [fst snd] in *;
    [|split; assumption].
  assert (Hconsole :
    forallb is_console
      ([ConsoleError (nl +:+ rule "="); ConsoleError "❌ ERROR: Operation Failed";
        ConsoleError (rule "="); ConsoleError (nl +:+ message e +:+ nl)]
       ++ match stack e with
          | Some st =>
              if Js.truthy st then [ConsoleError "Stack trace:"; ConsoleError st]
              else []
          | None => []
          end) = true).
  { destruct (stack e) as [st|]; [destruct (Js.truthy st)|]; reflexivity. }
  split.
  - rewrite request_places_app, (request_places_console _ Hconsole), app_nil_r.
    exact Horder.
  - now apply silent_app.
Qed.

(** ** After the submission *)

(** X18: the status of the receipt is reported and nothing more: when
    [tx.wait()] answers with a receipt whose status is not 1, the run
    prints the failed status and goes on to read the price back. *)
Theorem receipt_status_is_only_reported :
  forall (rt : Runtime) (w : World) (tx : Tx.t) (receipt : Receipt.t),
    In (Wait tx (inr receipt)) (fst (updatePrices rt w)) ->
    Receipt.status receipt <> 1 ->
    In (ConsoleLog "   Status: ❌ Failed") (fst (updatePrices rt w))
    /\ List.existsb is_price_query (fst (updatePrices rt w)) = true.
Proof.
  intros rt w tx receipt Hin Hstatus.
  open_run rt w t r Hrun.
  apply (in_filter (fun e => match e with Wait _ _ => true | _ => false end))
    in Hin; [|reflexivity].
  run_in Hrun; end_run Hrun; impossible; read_steps; destruct_or?;
    simplify_eq; try contradiction.
  all: destruct (Z.eqb_spec (Receipt.status receipt) 1) as [|_]; [contradiction|].
  all: split; [find_event | reflexivity].
Qed.

Lemma receipt_status_is_only_reported_witness :
  In (Wait {| Tx.hash := "0xaaaa" |}
        (inr {| Receipt.blockNumber := 7; Receipt.gasUsed := 21000;
                Receipt.status := 0; Receipt.hash := "0xaaaa" |}))
     (fst (updatePrices Sample.runtime Scenario.reverted))
  /\ 0 <> 1
  /\ In (ConsoleLog "   Status: ❌ Failed")
       (fst (updatePrices Sample.runtime Scenario.reverted))
  /\ List.existsb is_price_query
       (fst (updatePrices Sample.runtime Scenario.reverted)) = true.
Proof.
  assert (H1 : In (Wait {| Tx.hash := "0xaaaa" |}
                     (inr {| Receipt.blockNumber := 7; Receipt.gasUsed := 21000;
                             Receipt.status := 0; Receipt.hash := "0xaaaa" |}))
                  (fst (updatePrices Sample.runtime Scenario.reverted)))
    by (vm_compute; find_event).
  assert (H2 : 0 <> 1) by discriminate.
  split; [exact H1|]. split; [exact H2|].
  exact (receipt_status_is_only_reported _ _ _ _ H1 H2).
Defined.

(** X19: a line of the report that cannot be rendered ends the run like
    any failure.  When the stored price's timestamp is no date, the
    conversion's error is thrown after all five read-backs were
    answered: the exit code is 1 although the transaction was
    submitted and confirmed. *)
Theorem unshowable_timestamp_fails_after_confirmation :
  forall (rt : Runtime) (w : World) (contract feedId contract' : string)
         (value timestamp slotNumber deviation : Z) (error : JsError),
    In (GetPrice contract feedId (inr (value, timestamp, slotNumber)))
       (fst (updatePrices rt w)) ->
    In (MaxDeviationBps contract' (inr deviation)) (fst (updatePrices rt w)) ->
    toISOString rt (timestamp * 1000) = inl error ->
    snd (updatePrices rt w) = inl error
    /\ List.existsb is_submission (fst (updatePrices rt w)) = true
    /\ List.existsb is_failed_call (fst (updatePrices rt w)) = false
    /\ snd (main rt w) = 1.
Proof.
  intros rt w contract feedId contract' value timestamp slotNumber deviation error
         Hprice Hlast Hdate.
  unfold main. open_run rt w t r Hrun.
  apply (in_filter is_price_query) in Hprice; [|reflexivity].
  apply (in_filter (fun e => match e with MaxDeviationBps _ _ => true | _ => false end))
    in Hlast; [|reflexivity].
  run_in Hrun; end_run Hrun; impossible; read_steps; destruct_or?;
    simplify_eq; try contradiction.
  all: repeat split; try reflexivity; congruence.
Qed.

Lemma unshowable_timestamp_fails_after_confirmation_witness :
  In (GetPrice "0x2222222222222222222222222222222222222222" BTC_USD
        (inr (97000000000000000000000, 10000000000000000, 42)))
     (fst (updatePrices Scenario.strict_runtime Scenario.far_future))
  /\ In (MaxDeviationBps "0x2222222222222222222222222222222222222222" (inr 1000))
       (fst (updatePrices Scenario.strict_runtime Scenario.far_future))
  /\ toISOString Scenario.strict_runtime (10000000000000000 * 1000)
     = inl (Scenario.error "Invalid time value")
  /\ snd (updatePrices Scenario.strict_runtime Scenario.far_future)
     = inl (Scenario.error "Invalid time value")
  /\ List.existsb is_submission
       (fst (updatePrices Scenario.strict_runtime Scenario.far_future)) = true
  /\ List.existsb is_failed_call
       (fst (updatePrices Scenario.strict_runtime Scenario.far_future)) = false
  /\ snd (main Scenario.strict_runtime Scenario.far_future) = 1.
Proof.
  assert (H1 : In (GetPrice "0x2222222222222222222222222222222222222222" BTC_USD
                     (inr (97000000000000000000000, 10000000000000000, 42)))
                  (fst (updatePrices Scenario.strict_runtime Scenario.far_future)))
    by (vm_compute; find_event).
  assert (H2 : In (MaxDeviationBps "0x2222222222222222222222222222222222222222"
                     (inr 1000))
                  (fst (updatePrices Scenario.strict_runtime Scenario.far_future)))
    by (vm_compute; find_event).
  assert (H3 : toISOString Scenario.strict_runtime (10000000000000000 * 1000)
               = inl (Scenario.error "Invalid time value"))
    by reflexivity.
  split; [exact H1|]. split; [exact H2|]. split; [exact H3|].
  exact (unshowable_timestamp_fails_after_confirmation _ _ _ _ _ _ _ _ _ _ H1 H2 H3).
Defined.

(** X20: a complete answer of the gateway whose median value is no
    integer still ends the run: the conversion for the console line
    throws, the error is wrapped like a gateway error, and the fee is
    never asked. *)
Theorem unshowable_value_aborts :
  forall (rt : Runtime) (w : World) (feedHashes : list string) (cluster : string)
         (q : OracleQuote.t) (m : MedianResponse.t) (rest : list MedianResponse.t)
         (error : JsError),
    In (FetchOracleQuote feedHashes cluster (inr q)) (fst (updatePrices rt w)) ->
    lacks_encoded q = false ->
    OracleQuote.medianResponses q = Some (m :: rest) ->
    BigInt rt (MedianResponse.value m) = inl error ->
    snd (updatePrices rt w)
    = inl (newError rt ("Failed to fetch feed data: " +:+ message error))
    /\ List.filter is_fee_query (fst (updatePrices rt w)) = []
    /\ snd (main rt w) = 1.
Proof.
  intros rt w feedHashes cluster q m rest error Hin Henc Hmed Hbig.
  unfold main. open_run rt w t r Hrun.
  apply (in_filter is_gateway_call) in Hin; [|reflexivity].
  unfold lacks_encoded in Henc.
  run_in Hrun; end_run Hrun; impossible; read_steps; destruct_or?;
    simplify_eq; try contradiction.
  all: repeat match goal with
         | H : OracleQuote.medianResponses _ ≫= head = _ |- _ =>
             rewrite Hmed in H; cbn in H
         | H : OracleQuote.encoded _ = _ |- _ => rewrite H in Henc
         end; simplify_eq.
  all: try (rewrite Hbig in *; simplify_eq).
  all: try (match goal with H : Js.truthy _ = false |- _ => rewrite H in Henc end;
            discriminate Henc).
  all: repeat split; try reflexivity; congruence.
Qed.

Lemma unshowable_value_aborts_witness :
  In (FetchOracleQuote [Js.slice_from 2 BTC_USD] "mainnet"
        (inr Scenario.quote_with_fraction))
     (fst (updatePrices Sample.runtime Scenario.fractional_quote))
  /\ lacks_encoded Scenario.quote_with_fraction = false
  /\ OracleQuote.medianResponses Scenario.quote_with_fraction
     = Some [ {| MedianResponse.value := "97000.5" |} ]
  /\ BigInt Sample.runtime "97000.5"
     = inl (Scenario.error "Cannot convert 97000.5 to a BigInt")
  /\ snd (updatePrices Sample.runtime Scenario.fractional_quote)
     = inl (newError Sample.runtime
              "Failed to fetch feed data: Cannot convert 97000.5 to a BigInt")
  /\ List.filter is_fee_query
       (fst (updatePrices Sample.runtime Scenario.fractional_quote)) = []
  /\ snd (main Sample.runtime Scenario.fractional_quote) = 1.
Proof.
  assert (H1 : In (FetchOracleQuote [Js.slice_from 2 BTC_USD] "mainnet"
                     (inr Scenario.quote_with_fraction))
                  (fst (updatePrices Sample.runtime Scenario.fractional_quote)))
    by (vm_compute; find_event).
  assert (H2 : lacks_encoded Scenario.quote_with_fraction = false) by reflexivity.
  assert (H3 : OracleQuote.medianResponses Scenario.quote_with_fraction
               = Some [ {| MedianResponse.value := "97000.5" |} ]) by reflexivity.
  assert (H4 : BigInt Sample.runtime
                 (MedianResponse.value {| MedianResponse.value := "97000.5" |})
               = inl (Scenario.error "Cannot convert 97000.5 to a BigInt"))
    by reflexivity.
  split; [exact H1|]. split; [exact H2|]. split; [exact H3|]. split; [exact H4|].
  exact (unshowable_value_aborts _ _ _ _ _ _ _ _ H1 H2 H3 H4).
Defined.

(** ** The credential on the console *)

Lemma slice_to_all (n : nat) (s : string) :
  (String.length s <= n)%nat -> Js.slice_to n s = s.
Proof.
  revert n. induction s as [|c s IH]; intros [|n] H; try reflexivity.
  - cbn in H. lia.
  - cbn [Js.slice_to]. f_equal. apply IH. cbn in H. lia.
Qed.

Lemma slice_last_all (n : nat) (s : string) :
  (String.length s <= n)%nat -> Js.slice_last n s = s.
Proof.
  intros H. unfold Js.slice_last.
  replace (String.length s - n)%nat with 0%nat by lia. now destruct s.
Qed.

(** X21: the key is shown by its first six and last four characters,
    so a key of at most four characters is printed whole, twice, on the
    line that calls it hidden. *)
Theorem short_key_is_printed :
  forall (rt : Runtime) (w : World),
    (0 < String.length (privateKey (config rt w)) <= 4)%nat ->
    In (ConsoleLog ("✅ Private Key: " +:+ privateKey (config rt w) +:+ "..."
                    +:+ privateKey (config rt w) +:+ " (hidden)"))
       (fst (updatePrices rt w)).
Proof.
  intros rt w Hlen.
  assert (Hkey : Js.truthy (privateKey (config rt w)) = true)
    by (destruct (privateKey (config rt w)); [cbn in Hlen; lia | reflexivity]).
  open_run rt w t r Hrun.
  rewrite Hkey, slice_to_all, slice_last_all in Hrun by lia.
  run_in Hrun; end_run Hrun; impossible; read_steps; find_event.
Qed.

Lemma short_key_is_printed_witness :
  (0 < String.length (privateKey (config Sample.runtime Scenario.short_key)) <= 4)%nat
  /\ In (ConsoleLog "✅ Private Key: abc...abc (hidden)")
       (fst (updatePrices Sample.runtime Scenario.short_key)).
Proof.
  assert (H : (0 < String.length (privateKey (config Sample.runtime Scenario.short_key))
               <= 4)%nat) by (vm_compute; lia).
  split; [exact H|].
  exact (short_key_is_printed Sample.runtime Scenario.short_key H).
Defined.
